(** * Verum Omnis seal enforcement: sealing, gates and audit log

    A shallow embedding of the cryptographic seal enforcement module
    (the three gates [InputSealInterceptor], [InternalSealMiddleware],
    [OutputSealEnforcer] and the [SealAuditLog]) together with the
    platform functions it calls (Web Crypto digests, [TextEncoder],
    [JSON.stringify], [Date.prototype.toISOString]).

    Strings are byte strings holding UTF-8 text, so [TextEncoder.encode]
    is the list of bytes of the string.  Stateful code runs in a small
    state-and-exception monad over a [World] made of the audit log, the
    console and the system clock. *)

From Stdlib Require Import ZArith NArith List Bool Lia.
From Stdlib.Strings Require Import String Ascii Byte.
Import ListNotations.
Open Scope string_scope.

(* ====================================================================== *)
(** * Bytes, hexadecimal text and string helpers *)
(* ====================================================================== *)

Definition byte_of_Z (z : Z) : byte :=
  match Byte.of_N (Z.to_N (z mod 256)) with
  | Some b => b
  | None => x00
  end.

Definition Z_of_byte (b : byte) : Z := Z.of_N (Byte.to_N b).

(** [n.toString(16)] for one hexadecimal digit. *)
Definition hexDigit (n : N) : ascii :=
  match n with
  | 0 => "0" | 1 => "1" | 2 => "2" | 3 => "3" | 4 => "4" | 5 => "5"
  | 6 => "6" | 7 => "7" | 8 => "8" | 9 => "9" | 10 => "a" | 11 => "b"
  | 12 => "c" | 13 => "d" | 14 => "e" | _ => "f"
  end%N%char.

(** [b.toString(16).padStart(2, '0')] for a byte [b]. *)
Definition hex2 (b : byte) : string :=
  let n := Byte.to_N b in
  String (hexDigit (n / 16)) (String (hexDigit (n mod 16)) EmptyString).

(** [hashArray.map(b => b.toString(16).padStart(2, '0')).join('')]. *)
Fixpoint hexOfBytes (bs : list byte) : string :=
  match bs with
  | [] => EmptyString
  | b :: rest => hex2 b ++ hexOfBytes rest
  end.

(** [String.prototype.toUpperCase] on the ASCII letters; other bytes are
    left as they are (the module only applies it to hexadecimal text). *)
Definition upperAscii (c : ascii) : ascii :=
  let n := nat_of_ascii c in
  if (97 <=? n)%nat && (n <=? 122)%nat then ascii_of_nat (n - 32) else c.

Fixpoint toUpperCase (s : string) : string :=
  match s with
  | EmptyString => EmptyString
  | String c rest => String (upperAscii c) (toUpperCase rest)
  end.

(** [new TextEncoder().encode(s)]. *)
Definition TextEncoder_encode (s : string) : list byte := list_byte_of_string s.

(* ====================================================================== *)
(** * Web Crypto: [crypto.subtle.digest('SHA-256' | 'SHA-512', data)] *)
(* ====================================================================== *)

Module WebCrypto.

(** The two members of the SHA-2 family differ by the word size, the
    number of rounds, the rotation amounts, the initial state and the
    round constants (FIPS 180-4). *)
Record Sha2 := {
  wbits : Z;                    (* word size in bits *)
  rounds : nat;
  Sigma0 : Z * Z * Z;           (* three rotations *)
  Sigma1 : Z * Z * Z;
  sigma0 : Z * Z * Z;           (* two rotations and a shift *)
  sigma1 : Z * Z * Z;
  H0 : list Z;                  (* initial state, eight words *)
  K : list Z                    (* one constant for each round *)
}.

Definition primes : list Z :=
  [2; 3; 5; 7; 11; 13; 17; 19; 23; 29; 31; 37; 41; 43; 47; 53; 59; 61; 67; 71;
   73; 79; 83; 89; 97; 101; 103; 107; 109; 113; 127; 131; 137; 139; 149; 151;
   157; 163; 167; 173; 179; 181; 191; 193; 197; 199; 211; 223; 227; 229; 233;
   239; 241; 251; 257; 263; 269; 271; 277; 281; 283; 293; 307; 311; 313; 317;
   331; 337; 347; 349; 353; 359; 367; 373; 379; 383; 389; 397; 401; 409]%Z.

(** Integer cube root, one bit at a time from the top. *)
Fixpoint icbrt_from (bits : nat) (n acc : Z) : Z :=
  match bits with
  | O => acc
  | S b =>
      let c := (acc + 2 ^ Z.of_nat b)%Z in
      if (c * c * c <=? n)%Z then icbrt_from b n c else icbrt_from b n acc
  end.

(** The first [bits] bits of the fractional part of the square root and
    of the cube root of [p]. *)
Definition fracSqrt (bits p : Z) : Z :=
  (Z.sqrt (p * 2 ^ (2 * bits)) mod 2 ^ bits)%Z.

Definition fracCbrt (bits p : Z) : Z :=
  (icbrt_from (Z.to_nat bits + 4) (p * 2 ^ (3 * bits)) 0 mod 2 ^ bits)%Z.

(** Initial states: from the square roots of the first eight primes.
    Round constants: from the cube roots of the first sixty-four and
    eighty primes. *)
Definition H256 : list Z := Eval vm_compute in map (fracSqrt 32) (firstn 8 primes).
Definition H512 : list Z := Eval vm_compute in map (fracSqrt 64) (firstn 8 primes).
Definition K256 : list Z := Eval vm_compute in map (fracCbrt 32) (firstn 64 primes).
Definition K512 : list Z := Eval vm_compute in map (fracCbrt 64) (firstn 80 primes).

Definition SHA256 : Sha2 :=
  {| wbits := 32; rounds := 64;
     Sigma0 := (2, 13, 22); Sigma1 := (6, 11, 25);
     sigma0 := (7, 18, 3); sigma1 := (17, 19, 10);
     H0 := H256; K := K256 |}%Z.

Definition SHA512 : Sha2 :=
  {| wbits := 64; rounds := 80;
     Sigma0 := (28, 34, 39); Sigma1 := (14, 18, 41);
     sigma0 := (1, 8, 7); sigma1 := (19, 61, 6);
     H0 := H512; K := K512 |}%Z.

Section Family.
Variable P : Sha2.
Local Open Scope Z_scope.

Definition w : Z := wbits P.
Definition wrap (x : Z) : Z := x mod 2 ^ w.
Definition rotr (n x : Z) : Z :=
  wrap (Z.lor (Z.shiftr x n) (Z.shiftl x (w - n))).
Definition shr (n x : Z) : Z := Z.shiftr x n.

Definition bigSigma (r : Z * Z * Z) (x : Z) : Z :=
  let '(a, b, c) := r in Z.lxor (Z.lxor (rotr a x) (rotr b x)) (rotr c x).
Definition smallSigma (r : Z * Z * Z) (x : Z) : Z :=
  let '(a, b, c) := r in Z.lxor (Z.lxor (rotr a x) (rotr b x)) (shr c x).

Definition Ch (x y z : Z) : Z :=
  Z.lxor (Z.land x y) (Z.land (wrap (Z.lnot x)) z).
Definition Maj (x y z : Z) : Z :=
  Z.lxor (Z.lxor (Z.land x y) (Z.land x z)) (Z.land y z).

(** Big-endian encoding of [x] on [n] bytes, and decoding. *)
Fixpoint be_bytes (n : nat) (x : Z) : list Z :=
  match n with
  | O => []
  | S k => (Z.shiftr x (8 * Z.of_nat k)) mod 256 :: be_bytes k x
  end.
Definition be_word (bs : list Z) : Z :=
  fold_left (fun acc b => acc * 256 + b) bs 0.

Definition wordBytes : nat := Z.to_nat (w / 8).
Definition blockBytes : nat := (16 * wordBytes)%nat.
Definition lengthBytes : nat := (2 * wordBytes)%nat.

Definition pad (msg : list Z) : list Z :=
  let len := List.length msg in
  let used := ((len + 1 + lengthBytes) mod blockBytes)%nat in
  let zeros := ((blockBytes - used) mod blockBytes)%nat in
  msg ++ [128] ++ repeat 0 zeros ++ be_bytes lengthBytes (8 * Z.of_nat len).

(** Cut a list into chunks of [n] elements ([fuel] bounds the number
    of chunks). *)
Fixpoint chunks {A} (fuel n : nat) (l : list A) : list (list A) :=
  match fuel with
  | O => []
  | S f =>
      match l with
      | [] => []
      | _ => firstn n l :: chunks f n (skipn n l)
      end
  end.

Definition wordsOfBlock (blk : list Z) : list Z :=
  map be_word (chunks 16 wordBytes blk).

(** Message schedule, most recent word first. *)
Fixpoint extend (n : nat) (rw : list Z) : list Z :=
  match n with
  | O => rw
  | S k =>
      let x := wrap (smallSigma (sigma1 P) (nth 1 rw 0) + nth 6 rw 0
                     + smallSigma (sigma0 P) (nth 14 rw 0) + nth 15 rw 0) in
      extend k (x :: rw)
  end.
Definition schedule (blk : list Z) : list Z :=
  rev (extend (rounds P - 16) (rev (wordsOfBlock blk))).

Record HashState := {
  ha : Z; hb : Z; hc : Z; hd : Z; he : Z; hf : Z; hg : Z; hh : Z
}.

Definition round (s : HashState) (kw : Z * Z) : HashState :=
  let '(k, wt) := kw in
  let t1 := hh s + bigSigma (Sigma1 P) (he s) + Ch (he s) (hf s) (hg s) + k + wt in
  let t2 := bigSigma (Sigma0 P) (ha s) + Maj (ha s) (hb s) (hc s) in
  {| ha := wrap (t1 + t2); hb := ha s; hc := hb s; hd := hc s;
     he := wrap (hd s + t1); hf := he s; hg := hf s; hh := hg s |}.

Definition compress (s : HashState) (blk : list Z) : HashState :=
  let r := fold_left round (combine (K P) (schedule blk)) s in
  {| ha := wrap (ha s + ha r); hb := wrap (hb s + hb r);
     hc := wrap (hc s + hc r); hd := wrap (hd s + hd r);
     he := wrap (he s + he r); hf := wrap (hf s + hf r);
     hg := wrap (hg s + hg r); hh := wrap (hh s + hh r) |}.

Definition initial : HashState :=
  {| ha := nth 0 (H0 P) 0; hb := nth 1 (H0 P) 0; hc := nth 2 (H0 P) 0;
     hd := nth 3 (H0 P) 0; he := nth 4 (H0 P) 0; hf := nth 5 (H0 P) 0;
     hg := nth 6 (H0 P) 0; hh := nth 7 (H0 P) 0 |}.

Definition stateWords (s : HashState) : list Z :=
  [ha s; hb s; hc s; hd s; he s; hf s; hg s; hh s].

Definition digestZ (msg : list Z) : list Z :=
  let padded := pad msg in
  let blocks := chunks (List.length padded) blockBytes padded in
  flat_map (be_bytes wordBytes) (stateWords (fold_left compress blocks initial)).

Definition hash (data : list byte) : list byte :=
  map byte_of_Z (digestZ (map Z_of_byte data)).
End Family.

(** [await crypto.subtle.digest(alg, data)], as the array of bytes of
    the resulting buffer. *)
Definition digest (alg : Sha2) (data : list byte) : list byte := hash alg data.

End WebCrypto.

Definition abcDigest : string :=
  "ddaf35a193617abacc417349ae20413112e6fa4e89a97ea20a9eeee64b55d39a2192992a274fc1a836ba3c23a3feebbd454d4423643ce80e2a9ac94fa54ca49f".

(* ====================================================================== *)
(** * JavaScript values, errors and completions *)
(* ====================================================================== *)

(** A thrown [Error]: its [name] and its [message]. *)
Record JsError := { errName : string; errMessage : string }.

(** The completion of an evaluation: a value, or a thrown error. *)
Inductive Result (A : Type) : Type :=
| Ok (a : A)
| Err (e : JsError).
Arguments Ok {A} a.
Arguments Err {A} e.

(** Decimal text of a natural number, and of its last [n] digits padded
    with zeros ([String(x).padStart(n, '0')] for [x < 10^n]). *)
Definition digitChar (d : N) : ascii := hexDigit (d mod 10).

Fixpoint padDigits (n : nat) (x : N) : string :=
  match n with
  | O => EmptyString
  | S k => padDigits k (x / 10) ++ String (digitChar x) EmptyString
  end.

Fixpoint countDigits (fuel : nat) (x : N) : nat :=
  match fuel with
  | O => 1
  | S f => if (x <? 10)%N then 1 else S (countDigits f (x / 10))
  end.

Definition decimalOfN (x : N) : string :=
  padDigits (countDigits (N.to_nat (N.log2 x)) x) x.

(** A Number value: [m * 10^e], negated when [negative]; [m = 0] is a
    zero.  Every double has such a decimal expansion. *)
Inductive JsNumber : Type :=
| NaN
| Infinity (negative : bool)
| Finite (negative : bool) (m : N) (e : Z).

Definition numberOfN (n : N) : JsNumber := Finite false n 0.

Module JsNum.
(** Drop the trailing zeros of the mantissa. *)
Fixpoint normalise (fuel : nat) (m : N) (e : Z) : N * Z :=
  match fuel with
  | O => (m, e)
  | S f =>
      if ((0 <? m) && (m mod 10 =? 0))%N then normalise f (m / 10) (e + 1)
      else (m, e)
  end.

Fixpoint zeros (n : nat) : string :=
  match n with
  | O => EmptyString
  | S k => String "0" (zeros k)
  end.

(** [Number::toString] with radix 10 for a positive finite number whose
    shortest digits are [ds] and whose decimal point sits after [n]
    digits (ECMA-262, 6.1.6.1.20, steps 6 to 10). *)
Definition positional (ds : string) (n : Z) : string :=
  let k := Z.of_nat (String.length ds) in
  if ((k <=? n) && (n <=? 21))%Z then
    ds ++ zeros (Z.to_nat (n - k))
  else if ((0 <? n) && (n <=? 21))%Z then
    substring 0 (Z.to_nat n) ds ++ "."
      ++ substring (Z.to_nat n) (String.length ds - Z.to_nat n) ds
  else if ((-6 <? n) && (n <=? 0))%Z then
    "0." ++ zeros (Z.to_nat (- n)) ++ ds
  else
    let ex := (n - 1)%Z in
    let sign := if (ex <? 0)%Z then "-" else "+" in
    let mantissa :=
      match ds with
      | String d EmptyString => ds
      | String d rest => String d ("." ++ rest)
      | EmptyString => ds
      end in
    mantissa ++ "e" ++ sign ++ decimalOfN (Z.to_N (Z.abs ex)).

Definition toString (x : JsNumber) : string :=
  match x with
  | NaN => "NaN"
  | Infinity negative => if negative then "-Infinity" else "Infinity"
  | Finite negative m e =>
      if (m =? 0)%N then "0"
      else
        let '(s, e') := normalise (N.to_nat (N.log2 m)) m e in
        let ds := decimalOfN s in
        (if negative then "-" else EmptyString)
          ++ positional ds (Z.of_nat (String.length ds) + e')
  end.

(** The falsy numbers are the zeros and NaN. *)
Definition falsy (x : JsNumber) : bool :=
  match x with
  | NaN => true
  | Infinity _ => false
  | Finite _ m _ => (m =? 0)%N
  end.

Definition isFinite (x : JsNumber) : bool :=
  match x with
  | Finite _ _ _ => true
  | _ => false
  end.
End JsNum.

(** ** Dates *)

Module JsDate.
Local Open Scope Z_scope.

(** A time value is a number of milliseconds since the epoch of
    magnitude at most 8.64e15; [new Date(t)] is an invalid date outside
    that range. *)
Definition maxTime : Z := 8640000000000000.
Definition validTime (t : Z) : bool := Z.abs t <=? maxTime.

Definition msPerDay : Z := 86400000.

(** Year, month and day of a day number counted from 1970-01-01, in the
    proleptic Gregorian calendar. *)
Definition civil (day : Z) : Z * Z * Z :=
  let z := day + 719468 in
  let era := z / 146097 in
  let doe := z - era * 146097 in
  let yoe := (doe - doe / 1460 + doe / 36524 - doe / 146096) / 365 in
  let doy := doe - (365 * yoe + yoe / 4 - yoe / 100) in
  let mp := (5 * doy + 2) / 153 in
  let d := doy - (153 * mp + 2) / 5 + 1 in
  let m := if mp <? 10 then mp + 3 else mp - 9 in
  let y := yoe + era * 400 + (if m <=? 2 then 1 else 0) in
  (y, m, d).

Definition pad (n : nat) (x : Z) : string := padDigits n (Z.to_N x).

Definition yearText (y : Z) : string :=
  if (0 <=? y) && (y <=? 9999) then pad 4 y
  else (if y <? 0 then "-" else "+") ++ pad 6 (Z.abs y).

(** The text [YYYY-MM-DDTHH:mm:ss.sssZ] of a time value. *)
Definition isoFormat (t : Z) : string :=
  let '(y, m, d) := civil (t / msPerDay) in
  let ms := t mod msPerDay in
  (yearText y ++ "-" ++ pad 2 m ++ "-" ++ pad 2 d ++ "T"
     ++ pad 2 (ms / 3600000) ++ ":" ++ pad 2 (ms / 60000 mod 60) ++ ":"
     ++ pad 2 (ms / 1000 mod 60) ++ "." ++ pad 3 (ms mod 1000)) ++ "Z".

(** [new Date(t).toISOString()]: a [RangeError] on an invalid date. *)
Definition toISOString (t : Z) : Result string :=
  if validTime t then Ok (isoFormat t)
  else Err {| errName := "RangeError"; errMessage := "Invalid time value" |}.
End JsDate.

(** ** Values *)

Set Warnings "-register-all".

(** Values of type [any].  An object is the list of its own enumerable
    properties in insertion order (the order [JSON.stringify] follows);
    property reads are plain data lookups. *)
Inductive JsVal : Type :=
| JUndefined
| JNull
| JBool (b : bool)
| JNum (x : JsNumber)
| JBigInt (z : Z)
| JStr (s : string)
| JSymbol (description : string)
| JFunction (name : string)
| JArr (items : list JsVal)
| JObj (props : list (string * JsVal)).

Definition typeof (v : JsVal) : string :=
  match v with
  | JUndefined => "undefined"
  | JNull => "object"
  | JBool _ => "boolean"
  | JNum _ => "number"
  | JBigInt _ => "bigint"
  | JStr _ => "string"
  | JSymbol _ => "symbol"
  | JFunction _ => "function"
  | JArr _ => "object"
  | JObj _ => "object"
  end.

(** [!v]. *)
Definition falsy (v : JsVal) : bool :=
  match v with
  | JUndefined | JNull => true
  | JBool b => negb b
  | JNum x => JsNum.falsy x
  | JBigInt z => (z =? 0)%Z
  | JStr s => String.eqb s EmptyString
  | JSymbol _ | JFunction _ | JArr _ | JObj _ => false
  end.

Fixpoint lookup (key : string) (props : list (string * JsVal)) : JsVal :=
  match props with
  | [] => JUndefined
  | (k, v) :: rest => if String.eqb k key then v else lookup key rest
  end.

(** [v.key] for a value [v] that is not [null] or [undefined] and a key
    that is none of the built-in properties of the primitives. *)
Definition getProp (v : JsVal) (key : string) : JsVal :=
  match v with
  | JObj props => lookup key props
  | _ => JUndefined
  end.

(** [v === true]. *)
Definition isTrue (v : JsVal) : bool :=
  match v with
  | JBool true => true
  | _ => false
  end.

(** ** [JSON.stringify] *)

Module JSON.
Definition dquote : ascii := ascii_of_nat 34.

Definition escapeChar (c : ascii) : string :=
  let n := N_of_ascii c in
  if (n =? 34)%N then String "\" (String dquote EmptyString)
  else if (n =? 92)%N then "\\"
  else if (n =? 8)%N then "\b"
  else if (n =? 12)%N then "\f"
  else if (n =? 10)%N then "\n"
  else if (n =? 13)%N then "\r"
  else if (n =? 9)%N then "\t"
  else if (n <? 32)%N then
    "\u00" ++ hex2 (byte_of_Z (Z.of_N n))
  else String c EmptyString.

Fixpoint escape (s : string) : string :=
  match s with
  | EmptyString => EmptyString
  | String c rest => escapeChar c ++ escape rest
  end.

Definition quote (s : string) : string :=
  String dquote (escape s) ++ String dquote EmptyString.

Definition numberText (x : JsNumber) : string :=
  if JsNum.isFinite x then JsNum.toString x else "null".

(** The result is [None] where [JSON.stringify] returns [undefined];
    a BigInt makes it throw a [TypeError]. *)
Fixpoint stringify (v : JsVal) : Result (option string) :=
  match v with
  | JUndefined | JSymbol _ | JFunction _ => Ok None
  | JNull => Ok (Some "null")
  | JBool b => Ok (Some (if b then "true" else "false"))
  | JNum x => Ok (Some (numberText x))
  | JStr s => Ok (Some (quote s))
  | JBigInt _ =>
      Err {| errName := "TypeError";
             errMessage := "Do not know how to serialize a BigInt" |}
  | JArr items =>
      let fix elements (l : list JsVal) : Result (list string) :=
        match l with
        | [] => Ok []
        | x :: rest =>
            match stringify x with
            | Err e => Err e
            | Ok o =>
                match elements rest with
                | Err e => Err e
                | Ok ts =>
                    Ok (match o with Some t => t | None => "null" end :: ts)
                end
            end
        end in
      match elements items with
      | Err e => Err e
      | Ok ts => Ok (Some ("[" ++ String.concat "," ts ++ "]"))
      end
  | JObj props =>
      let fix members (l : list (string * JsVal)) : Result (list string) :=
        match l with
        | [] => Ok []
        | (k, x) :: rest =>
            match stringify x with
            | Err e => Err e
            | Ok o =>
                match members rest with
                | Err e => Err e
                | Ok ts =>
                    Ok (match o with
                        | Some t => (quote k ++ ":" ++ t) :: ts
                        | None => ts
                        end)
                end
            end
        end in
      match members props with
      | Err e => Err e
      | Ok ts => Ok (Some ("{" ++ String.concat "," ts ++ "}"))
      end
  end.
End JSON.

(* ====================================================================== *)
(** * Type definitions of the seal module *)
(* ====================================================================== *)

Record GeolocationCoordinates := {
  latitude : JsNumber;
  longitude : JsNumber;
  accuracy : JsNumber
}.

Record GeolocationPosition := { coords : GeolocationCoordinates }.

(** A [File]: its properties and the outcome of [file.arrayBuffer()]. *)
Module File.
Record t := {
  name : string;
  type : string;
  size : N;
  lastModified : Z;
  arrayBuffer : Result (list byte)
}.
End File.

Module AuditLogEntry.
Inductive Operation := SEAL_CREATE | SEAL_VERIFY | SEAL_REJECT.
Inductive Outcome := SUCCESS | FAILURE.

Record t := {
  operation : Operation;
  timestamp : string;
  itemId : option string;
  sha512 : option string;
  result : Outcome;
  reason : option string
}.

Definition withTimestamp (ts : string) (e : t) : t :=
  {| operation := operation e; timestamp := ts; itemId := itemId e;
     sha512 := sha512 e; result := result e; reason := reason e |}.
End AuditLogEntry.
Import AuditLogEntry (SEAL_CREATE, SEAL_VERIFY, SEAL_REJECT, SUCCESS, FAILURE).

Module SealedData.
Record t := {
  sha512 : string;
  timestamp : string;
  gps : option GeolocationCoordinates;
  sealed : bool;
  chainOfCustody : string;
  metadata : option (list (string * JsVal));
  authenticityScore : option JsNumber;
  tamperFlags : option (list string);
  content : option JsVal
}.

Definition gpsValue (g : option GeolocationCoordinates) : JsVal :=
  match g with
  | None => JUndefined
  | Some c => JObj [ ("latitude", JNum (latitude c));
                     ("longitude", JNum (longitude c));
                     ("accuracy", JNum (accuracy c)) ]
  end.

Definition optional {A} (f : A -> JsVal) (o : option A) : JsVal :=
  match o with
  | None => JUndefined
  | Some a => f a
  end.

(** The object a [SealedData] is at run time. *)
Definition toValue (d : t) : JsVal :=
  JObj [ ("sha512", JStr (sha512 d));
         ("timestamp", JStr (timestamp d));
         ("gps", gpsValue (gps d));
         ("sealed", JBool (sealed d));
         ("chainOfCustody", JStr (chainOfCustody d));
         ("metadata", optional JObj (metadata d));
         ("authenticityScore", optional JNum (authenticityScore d));
         ("tamperFlags", optional (fun l => JArr (map JStr l)) (tamperFlags d));
         ("content", optional (fun v => v) (content d)) ].
End SealedData.

Record SealValidationResult := {
  valid : bool;
  reason : option string;
  auditEntry : option AuditLogEntry.t
}.

(** ** Custom errors *)

Definition SealViolationError (message : string) : JsError :=
  {| errName := "SealViolationError";
     errMessage := "SEAL VIOLATION: " ++ message |}.

Definition SealIntegrityError (message : string) : JsError :=
  {| errName := "SealIntegrityError";
     errMessage := "SEAL INTEGRITY FAILURE: " ++ message |}.

(* ====================================================================== *)
(** * The world and the monad of effects *)
(* ====================================================================== *)

(** What the module can observe and change: the entries of the global
    [sealAuditLog], the lines written to the console, the requests sent
    to external systems, and the system clock ([clock n] is the time in
    milliseconds that the [n]-th reading returns; the system time is
    always a time value). *)
Record World := {
  logs : list AuditLogEntry.t;
  console : list (string * AuditLogEntry.t);
  network : list (string * string);
  clock : nat -> Z;
  reads : nat
}.

Definition M (A : Type) : Type := World -> Result A * World.

Definition ret {A} (a : A) : M A := fun w => (Ok a, w).

Definition throw {A} (e : JsError) : M A := fun w => (Err e, w).

Definition bind {A B} (m : M A) (k : A -> M B) : M B :=
  fun w =>
    match m w with
    | (Ok a, w') => k a w'
    | (Err e, w') => (Err e, w')
    end.

(** [try { m } catch (error) { handler }]. *)
Definition tryCatch {A} (m : M A) (handler : JsError -> M A) : M A :=
  fun w =>
    match m w with
    | (Ok a, w') => (Ok a, w')
    | (Err e, w') => handler e w'
    end.

Definition lift {A} (r : Result A) : M A := fun w => (r, w).

Declare Scope js_scope.
Delimit Scope js_scope with js.
Notation "x <- m ;; k" := (bind m (fun x => k))
  (at level 100, m at next level, right associativity) : js_scope.
Notation "m ;; k" := (bind m (fun _ => k))
  (at level 100, right associativity) : js_scope.
Open Scope js_scope.

(** The four ways the world changes. *)
Definition tick (w : World) : World :=
  {| logs := logs w; console := console w; network := network w;
     clock := clock w; reads := S (reads w) |}.

Definition addLog (e : AuditLogEntry.t) (w : World) : World :=
  {| logs := logs w ++ [e]; console := console w; network := network w;
     clock := clock w; reads := reads w |}.

Definition addConsole (tag : string) (e : AuditLogEntry.t) (w : World) : World :=
  {| logs := logs w; console := console w ++ [(tag, e)];
     network := network w; clock := clock w; reads := reads w |}.

Definition addRequest (destination body : string) (w : World) : World :=
  {| logs := logs w; console := console w;
     network := network w ++ [(destination, body)];
     clock := clock w; reads := reads w |}.

(** [new Date().toISOString()]. *)
Definition nowISOString : M string :=
  fun w => (Ok (JsDate.isoFormat (clock w (reads w))), tick w).

(** A request to an external system. *)
Definition transmit (destination body : string) : M unit :=
  fun w => (Ok tt, addRequest destination body w).

(* ====================================================================== *)
(** * Seal audit log *)
(* ====================================================================== *)

Module SealAuditLog.
Definition push (e : AuditLogEntry.t) : M unit :=
  fun w => (Ok tt, addLog e w).

Definition console_log (tag : string) (e : AuditLogEntry.t) : M unit :=
  fun w => (Ok tt, addConsole tag e w).

Definition log (entry : AuditLogEntry.t) : M unit :=
  ts <- (if String.eqb (AuditLogEntry.timestamp entry) EmptyString
         then nowISOString
         else ret (AuditLogEntry.timestamp entry)) ;;
  push (AuditLogEntry.withTimestamp ts entry) ;;
  console_log "[SEAL AUDIT]" entry.

Definition getLogs : M (list AuditLogEntry.t) := fun w => (Ok (logs w), w).
End SealAuditLog.

(* ====================================================================== *)
(** * Gate 1: input seal interceptor *)
(* ====================================================================== *)


(** [encoder.encode(JSON.stringify(v))]; [encode(undefined)] encodes the
    empty string. *)
Definition encodeJSON (v : JsVal) : M (list byte) :=
  o <- lift (JSON.stringify v) ;;
  ret (TextEncoder_encode (match o with Some s => s | None => EmptyString end)).

Module InputSealInterceptor.

Definition generateSHA512 (file : File.t) : M string :=
  buffer <- lift (File.arrayBuffer file) ;;
  let hashArray := WebCrypto.digest WebCrypto.SHA512 buffer in
  ret (hexOfBytes hashArray).

Definition extractMetadata (file : File.t) : M (list (string * JsVal)) :=
  modified <- lift (JsDate.toISOString (File.lastModified file)) ;;
  ret [ ("name", JStr (File.name file));
        ("type", JStr (File.type file));
        ("size", JNum (numberOfN (File.size file)));
        ("lastModified", JStr modified) ].

Definition authenticityCheck (_file : File.t) : M JsNumber :=
  ret (numberOfN 95).

Definition tamperDetection (_file : File.t) : M (list string) :=
  ret [].

Definition generateChainOfCustody (sha512 timestamp : string)
    (gps : option GeolocationCoordinates) : M string :=
  data <- encodeJSON (JObj [ ("sha512", JStr sha512);
                             ("timestamp", JStr timestamp);
                             ("gps", SealedData.gpsValue gps) ]) ;;
  let hashArray := WebCrypto.digest WebCrypto.SHA256 data in
  ret (substring 0 16 (toUpperCase (hexOfBytes hashArray))).

Definition sealFile (file : File.t) (geolocation : option GeolocationPosition)
    : M SealedData.t :=
  tryCatch
    (sha512 <- generateSHA512 file ;;
     timestamp <- nowISOString ;;
     let gps :=
       match geolocation with
       | Some g => Some {| latitude := latitude (coords g);
                           longitude := longitude (coords g);
                           accuracy := accuracy (coords g) |}
       | None => None
       end in
     metadata <- extractMetadata file ;;
     authenticityScore <- authenticityCheck file ;;
     tamperFlags <- tamperDetection file ;;
     chainOfCustody <- generateChainOfCustody sha512 timestamp gps ;;
     let sealedData :=
       {| SealedData.sha512 := sha512;
          SealedData.timestamp := timestamp;
          SealedData.gps := gps;
          SealedData.sealed := true;
          SealedData.chainOfCustody := chainOfCustody;
          SealedData.metadata := Some metadata;
          SealedData.authenticityScore := Some authenticityScore;
          SealedData.tamperFlags := Some tamperFlags;
          SealedData.content := None |} in
     SealAuditLog.log
       {| AuditLogEntry.operation := SEAL_CREATE;
          AuditLogEntry.timestamp := timestamp;
          AuditLogEntry.itemId := Some (File.name file);
          AuditLogEntry.sha512 := Some sha512;
          AuditLogEntry.result := SUCCESS;
          AuditLogEntry.reason := None |} ;;
     ret sealedData)
    (fun error =>
       now <- nowISOString ;;
       SealAuditLog.log
         {| AuditLogEntry.operation := SEAL_CREATE;
            AuditLogEntry.timestamp := now;
            AuditLogEntry.itemId := Some (File.name file);
            AuditLogEntry.sha512 := None;
            AuditLogEntry.result := FAILURE;
            AuditLogEntry.reason := Some (errMessage error) |} ;;
       throw (SealViolationError ("Failed to seal file: " ++ errMessage error))).

Definition validateSeal (data : JsVal) : SealValidationResult :=
  if falsy data || negb (String.eqb (typeof data) "object") then
    {| valid := false; reason := Some "Data is not an object";
       auditEntry := None |}
  else if negb (isTrue (getProp data "sealed")) then
    {| valid := false; reason := Some "Data is not marked as sealed";
       auditEntry := None |}
  else if falsy (getProp data "sha512") || falsy (getProp data "timestamp")
          || falsy (getProp data "chainOfCustody") then
    {| valid := false;
       reason := Some "Missing required seal fields (sha512, timestamp, or chainOfCustody)";
       auditEntry := None |}
  else
    {| valid := true; reason := None; auditEntry := None |}.


End InputSealInterceptor.

(* ====================================================================== *)
(** * Gate 2: internal seal middleware *)
(* ====================================================================== *)

Module InternalSealMiddleware.

Definition verifySealIntegrity (data : SealedData.t) : bool :=
  if String.eqb (SealedData.sha512 data) EmptyString
     || String.eqb (SealedData.timestamp data) EmptyString
     || String.eqb (SealedData.chainOfCustody data) EmptyString
  then false
  else true.

Definition validateAndPass (data : SealedData.t) (fromModule toModule : string)
    : M SealedData.t :=
  if negb (SealedData.sealed data) then
    now <- nowISOString ;;
    SealAuditLog.log
      {| AuditLogEntry.operation := SEAL_REJECT;
         AuditLogEntry.timestamp := now;
         AuditLogEntry.itemId := None;
         AuditLogEntry.sha512 := None;
         AuditLogEntry.result := FAILURE;
         AuditLogEntry.reason :=
           Some ("Unsealed data rejected in transit from " ++ fromModule
                   ++ " to " ++ toModule) |} ;;
    throw (SealViolationError
             ("Unsealed data rejected in transit from " ++ fromModule
                ++ " to " ++ toModule))
  else if negb (verifySealIntegrity data) then
    now <- nowISOString ;;
    SealAuditLog.log
      {| AuditLogEntry.operation := SEAL_VERIFY;
         AuditLogEntry.timestamp := now;
         AuditLogEntry.itemId := None;
         AuditLogEntry.sha512 := Some (SealedData.sha512 data);
         AuditLogEntry.result := FAILURE;
         AuditLogEntry.reason :=
           Some ("Seal integrity check failed from " ++ fromModule
                   ++ " to " ++ toModule) |} ;;
    throw (SealIntegrityError
             "Seal integrity check failed - possible tampering detected")
  else
    now <- nowISOString ;;
    SealAuditLog.log
      {| AuditLogEntry.operation := SEAL_VERIFY;
         AuditLogEntry.timestamp := now;
         AuditLogEntry.itemId := None;
         AuditLogEntry.sha512 := Some (SealedData.sha512 data);
         AuditLogEntry.result := SUCCESS;
         AuditLogEntry.reason := None |} ;;
    ret data.

End InternalSealMiddleware.

(* ====================================================================== *)
(** * Gate 3: output seal enforcer *)
(* ====================================================================== *)

Module OutputSealEnforcer.

Definition sealForOutput (data : JsVal) (destination : string)
    : M SealedData.t :=
  tryCatch
    (timestamp <- nowISOString ;;
     contentData <- encodeJSON data ;;
     let hashArray := WebCrypto.digest WebCrypto.SHA512 contentData in
     let sha512 := hexOfBytes hashArray in
     custodyData <- encodeJSON (JObj [ ("sha512", JStr sha512);
                                       ("timestamp", JStr timestamp);
                                       ("destination", JStr destination) ]) ;;
     let custodyArray := WebCrypto.digest WebCrypto.SHA256 custodyData in
     let chainOfCustody :=
       substring 0 16 (toUpperCase (hexOfBytes custodyArray)) in
     let sealedOutput :=
       {| SealedData.sha512 := sha512;
          SealedData.timestamp := timestamp;
          SealedData.gps := None;
          SealedData.sealed := true;
          SealedData.chainOfCustody := chainOfCustody;
          SealedData.metadata := None;
          SealedData.authenticityScore := None;
          SealedData.tamperFlags := None;
          SealedData.content := Some data |} in
     SealAuditLog.log
       {| AuditLogEntry.operation := SEAL_CREATE;
          AuditLogEntry.timestamp := timestamp;
          AuditLogEntry.itemId := None;
          AuditLogEntry.sha512 := Some sha512;
          AuditLogEntry.result := SUCCESS;
          AuditLogEntry.reason := Some ("Output sealed for " ++ destination) |} ;;
     ret sealedOutput)
    (fun error =>
       now <- nowISOString ;;
       SealAuditLog.log
         {| AuditLogEntry.operation := SEAL_CREATE;
            AuditLogEntry.timestamp := now;
            AuditLogEntry.itemId := None;
            AuditLogEntry.sha512 := None;
            AuditLogEntry.result := FAILURE;
            AuditLogEntry.reason :=
              Some ("Failed to seal output for " ++ destination ++ ": "
                      ++ errMessage error) |} ;;
       throw (SealViolationError ("Failed to seal output: " ++ errMessage error))).

Definition validateBeforeTransmission (data : SealedData.t)
    (destination : string) : M unit :=
  if negb (SealedData.sealed data) then
    now <- nowISOString ;;
    SealAuditLog.log
      {| AuditLogEntry.operation := SEAL_REJECT;
         AuditLogEntry.timestamp := now;
         AuditLogEntry.itemId := None;
         AuditLogEntry.sha512 := None;
         AuditLogEntry.result := FAILURE;
         AuditLogEntry.reason :=
           Some ("Attempted to send unsealed data to " ++ destination) |} ;;
    throw (SealViolationError
             ("Cannot send unsealed data to " ++ destination
                ++ ". All external transmissions must be sealed."))
  else
    now <- nowISOString ;;
    SealAuditLog.log
      {| AuditLogEntry.operation := SEAL_VERIFY;
         AuditLogEntry.timestamp := now;
         AuditLogEntry.itemId := None;
         AuditLogEntry.sha512 := Some (SealedData.sha512 data);
         AuditLogEntry.result := SUCCESS;
         AuditLogEntry.reason :=
           Some ("Output validated for transmission to " ++ destination) |}.

End OutputSealEnforcer.

(* ====================================================================== *)
(** * Consensus aggregator *)
(* ====================================================================== *)

Module ConsensusAggregator.

(** Modelled from the spec: the repository holds no code of the
    aggregator (the status of a verdict, section 3). *)
Inductive Status := ACCEPTED | FLAGGED | REJECTED.

Section Reconcile.
(** The analyzer-specific payload of a finding, the analyzer-defined
    agreement between two payloads (exact match for categorical
    values, a tolerance band for scores) and the digest of the
    envelope that carries a finding. *)
Variable Value : Type.
Variable agrees : Value -> Value -> bool.
Variable Confidence : Type.

(** Modelled from the spec: the repository holds no code of the
    aggregator (a finding, section 3). *)
Record Finding := {
  analyzer_id : string;
  claim_id : string;
  verdict_value : Value;
  confidence : Confidence
}.

Variable digestOf : Finding -> string.

(** Modelled from the spec: the repository holds no code of the
    aggregator (a verdict, section 3). *)
Record Verdict := {
  verdict_claim_id : string;
  status : Status;
  supporting_findings : list string;
  agreement_count : nat;
  total_count : nat
}.

(** Modelled from the spec: the repository holds no code of the
    aggregator (the decision rule of section 4.3, step 3). *)
Definition decide (agreement total : nat) : Status :=
  if (agreement =? total)%nat && (3 <=? total)%nat then ACCEPTED
  else if (total - 1 <=? agreement)%nat && (2 <=? total)%nat then FLAGGED
  else REJECTED.

(** Modelled from the spec: the repository holds no code of the
    aggregator (section 4.3, steps 1 and 2: the number of findings
    that agree with a value, and the size of the largest such group,
    which is the group of the plurality value). *)
Definition groupSize (v : Value) (findings : list Finding) : nat :=
  List.length (filter (fun f => agrees v (verdict_value f)) findings).

(** Modelled from the spec: the repository holds no code of the
    aggregator (section 4.3, step 2: the agreement count). *)
Definition largestGroup (findings : list Finding) : nat :=
  fold_right (fun f best => Nat.max (groupSize (verdict_value f) findings) best)
             0%nat findings.

(** Modelled from the spec: the repository holds no code of the
    aggregator ([reconcile] of section 4.3; no findings, no verdict). *)
Definition reconcile (claim : string) (findings : list Finding)
    : option Verdict :=
  match findings with
  | [] => None
  | _ :: _ =>
      let agreement := largestGroup findings in
      let total := List.length findings in
      Some {| verdict_claim_id := claim;
              status := decide agreement total;
              supporting_findings := map digestOf findings;
              agreement_count := agreement;
              total_count := total |}
  end.
End Reconcile.

Arguments analyzer_id {Value Confidence} _.
Arguments claim_id {Value Confidence} _.
Arguments verdict_value {Value Confidence} _.
Arguments confidence {Value Confidence} _.
Arguments Build_Finding {Value Confidence} _ _ _ _.
Arguments reconcile {Value} agrees {Confidence} digestOf claim findings.

End ConsensusAggregator.

(* ====================================================================== *)
(** * Vocabulary of the statements and sample inputs *)
(* ====================================================================== *)

(** ** Worlds and values a call leaves behind *)

Definition auditTag : string := "[SEAL AUDIT]".

(** The world after [sealAuditLog.log(e)] for an entry that carries its
    timestamp. *)
Definition logged (e : AuditLogEntry.t) (w : World) : World :=
  addConsole auditTag e (addLog e w).

(** The timestamp the log stores for an entry. *)
Definition stampFor (e : AuditLogEntry.t) (w : World) : string :=
  if String.eqb (AuditLogEntry.timestamp e) EmptyString
  then JsDate.isoFormat (clock w (reads w))
  else AuditLogEntry.timestamp e.

(** The time the next clock reading gives. *)
Definition nowText (w : World) : string := JsDate.isoFormat (clock w (reads w)).

(** The [gps] field built from an optional geolocation. *)
Definition gpsOf (geolocation : option GeolocationPosition)
    : option GeolocationCoordinates :=
  match geolocation with
  | Some g => Some {| latitude := latitude (coords g);
                      longitude := longitude (coords g);
                      accuracy := accuracy (coords g) |}
  | None => None
  end.

(** ** The entries the gates write to the audit log *)

Definition sealCreated (file : File.t) (sha512 timestamp : string)
    : AuditLogEntry.t :=
  {| AuditLogEntry.operation := SEAL_CREATE;
     AuditLogEntry.timestamp := timestamp;
     AuditLogEntry.itemId := Some (File.name file);
     AuditLogEntry.sha512 := Some sha512;
     AuditLogEntry.result := SUCCESS;
     AuditLogEntry.reason := None |}.

Definition sealFailed (file : File.t) (timestamp message : string)
    : AuditLogEntry.t :=
  {| AuditLogEntry.operation := SEAL_CREATE;
     AuditLogEntry.timestamp := timestamp;
     AuditLogEntry.itemId := Some (File.name file);
     AuditLogEntry.sha512 := None;
     AuditLogEntry.result := FAILURE;
     AuditLogEntry.reason := Some message |}.

(** The metadata extracted from a file with a valid modification date. *)
Definition fileMetadata (file : File.t) : list (string * JsVal) :=
  [ ("name", JStr (File.name file));
    ("type", JStr (File.type file));
    ("size", JNum (numberOfN (File.size file)));
    ("lastModified", JStr (JsDate.isoFormat (File.lastModified file))) ].

(** The error [toISOString] throws on an invalid date. *)
Definition invalidTime : JsError :=
  {| errName := "RangeError"; errMessage := "Invalid time value" |}.

Definition transitRejected (timestamp fromModule toModule : string)
    : AuditLogEntry.t :=
  {| AuditLogEntry.operation := SEAL_REJECT;
     AuditLogEntry.timestamp := timestamp;
     AuditLogEntry.itemId := None;
     AuditLogEntry.sha512 := None;
     AuditLogEntry.result := FAILURE;
     AuditLogEntry.reason :=
       Some ("Unsealed data rejected in transit from " ++ fromModule
               ++ " to " ++ toModule) |}.

Definition integrityFailed (timestamp sha512 fromModule toModule : string)
    : AuditLogEntry.t :=
  {| AuditLogEntry.operation := SEAL_VERIFY;
     AuditLogEntry.timestamp := timestamp;
     AuditLogEntry.itemId := None;
     AuditLogEntry.sha512 := Some sha512;
     AuditLogEntry.result := FAILURE;
     AuditLogEntry.reason :=
       Some ("Seal integrity check failed from " ++ fromModule
               ++ " to " ++ toModule) |}.

Definition sealVerified (timestamp sha512 : string) : AuditLogEntry.t :=
  {| AuditLogEntry.operation := SEAL_VERIFY;
     AuditLogEntry.timestamp := timestamp;
     AuditLogEntry.itemId := None;
     AuditLogEntry.sha512 := Some sha512;
     AuditLogEntry.result := SUCCESS;
     AuditLogEntry.reason := None |}.

Definition transmissionRejected (timestamp destination : string)
    : AuditLogEntry.t :=
  {| AuditLogEntry.operation := SEAL_REJECT;
     AuditLogEntry.timestamp := timestamp;
     AuditLogEntry.itemId := None;
     AuditLogEntry.sha512 := None;
     AuditLogEntry.result := FAILURE;
     AuditLogEntry.reason :=
       Some ("Attempted to send unsealed data to " ++ destination) |}.

Definition transmissionValidated (timestamp sha512 destination : string)
    : AuditLogEntry.t :=
  {| AuditLogEntry.operation := SEAL_VERIFY;
     AuditLogEntry.timestamp := timestamp;
     AuditLogEntry.itemId := None;
     AuditLogEntry.sha512 := Some sha512;
     AuditLogEntry.result := SUCCESS;
     AuditLogEntry.reason :=
       Some ("Output validated for transmission to " ++ destination) |}.

Definition outputSealed (timestamp sha512 destination : string)
    : AuditLogEntry.t :=
  {| AuditLogEntry.operation := SEAL_CREATE;
     AuditLogEntry.timestamp := timestamp;
     AuditLogEntry.itemId := None;
     AuditLogEntry.sha512 := Some sha512;
     AuditLogEntry.result := SUCCESS;
     AuditLogEntry.reason := Some ("Output sealed for " ++ destination) |}.

Definition outputFailed (timestamp destination message : string)
    : AuditLogEntry.t :=
  {| AuditLogEntry.operation := SEAL_CREATE;
     AuditLogEntry.timestamp := timestamp;
     AuditLogEntry.itemId := None;
     AuditLogEntry.sha512 := None;
     AuditLogEntry.result := FAILURE;
     AuditLogEntry.reason :=
       Some ("Failed to seal output for " ++ destination ++ ": " ++ message) |}.

(** ** Sample inputs *)

(** An empty world whose clock reads 13:13:16.364 on 2025-01-22, then
    one millisecond more at each reading. *)
Definition world0 : World :=
  {| logs := []; console := []; network := [];
     clock := fun n => nth n [1737551596364; 1737551596365; 1737551596366;
                              1737551596367]%Z 1737551596400%Z;
     reads := 0 |}.

(** A readable text file holding the three bytes [abc]. *)
Definition evidence : File.t :=
  {| File.name := "evidence.txt"; File.type := "text/plain"; File.size := 3;
     File.lastModified := 1737500000000;
     File.arrayBuffer := Ok (TextEncoder_encode "abc") |}.

(** Two packets that differ in their [sealed] flag only. *)
Definition unsealedPacket : SealedData.t :=
  {| SealedData.sha512 := "ab12"; SealedData.timestamp := "2025-01-22T13:13:16.364Z";
     SealedData.gps := None; SealedData.sealed := false;
     SealedData.chainOfCustody := "E4A7C9B2F1D6A7F3";
     SealedData.metadata := None; SealedData.authenticityScore := None;
     SealedData.tamperFlags := None; SealedData.content := Some (JStr "summary") |}.

Definition sealedPacket : SealedData.t :=
  {| SealedData.sha512 := "ab12"; SealedData.timestamp := "2025-01-22T13:13:16.364Z";
     SealedData.gps := None; SealedData.sealed := true;
     SealedData.chainOfCustody := "E4A7C9B2F1D6A7F3";
     SealedData.metadata := None; SealedData.authenticityScore := None;
     SealedData.tamperFlags := None; SealedData.content := Some (JStr "summary") |}.

(** What [sealFile] makes of [evidence] at 13:13:16.364 on 2025-01-22. *)
Definition sealedEvidence : SealedData.t :=
  {| SealedData.sha512 := abcDigest;
     SealedData.timestamp := "2025-01-22T13:13:16.364Z";
     SealedData.gps := None;
     SealedData.sealed := true;
     SealedData.chainOfCustody := "EBC666758C052C62";
     SealedData.metadata :=
       Some [ ("name", JStr "evidence.txt"); ("type", JStr "text/plain");
              ("size", JNum (Finite false 3 0));
              ("lastModified", JStr "2025-01-21T22:53:20.000Z") ];
     SealedData.authenticityScore := Some (Finite false 95 0);
     SealedData.tamperFlags := Some [];
     SealedData.content := None |}.

(** The world [sealFile] leaves after sealing [evidence] in [world0]. *)
Definition world1 : World :=
  logged (sealCreated evidence abcDigest "2025-01-22T13:13:16.364Z") (tick world0).

(** ** Classifying values *)


(** A seal field is missing when reading it gives a falsy value: the
    property is absent, or holds [undefined], [null], the empty string,
    a zero, [NaN] or [false]. *)
Definition missing (data : JsVal) (key : string) : Prop :=
  falsy (getProp data key) = true.

(** ** Findings of three analyzers on one claim *)

Definition finding (analyzer value : string) : @ConsensusAggregator.Finding string nat :=
  ConsensusAggregator.Build_Finding analyzer "c1" value 90.

Definition statusOf (values : list string) : option ConsensusAggregator.Status :=
  option_map ConsensusAggregator.status
    (ConsensusAggregator.reconcile String.eqb
       (fun f => ConsensusAggregator.analyzer_id f) "c1"
       (map (fun v => finding ("analyzer-" ++ v) v) values)).

(** ** Altered histories and payloads *)

(** A world with another history in its audit log. *)
Definition withLogs (history : list AuditLogEntry.t) (w : World) : World :=
  {| logs := history; console := console w; network := network w;
     clock := clock w; reads := reads w |}.

(** A brief for an external system. *)
Definition report (text : string) : JsVal := JObj [ ("report", JStr text) ].

Definition reportADigest : string :=
  "42dea1bbe020db5643e8bfa0c9c73fff0a816e7d7d56aedf688912bda0feab4f7728cf05b7354006f30937f12e9d6aed23a8039a61b3ceb30bf5b0d55fd1df3d".

(** What [sealForOutput] makes of [report "A"] for the OpenAI API at
    13:13:16.364 on 2025-01-22. *)
Definition sealedBrief : SealedData.t :=
  {| SealedData.sha512 := reportADigest;
     SealedData.timestamp := "2025-01-22T13:13:16.364Z";
     SealedData.gps := None;
     SealedData.sealed := true;
     SealedData.chainOfCustody := "E0178D86905C8F9D";
     SealedData.metadata := None;
     SealedData.authenticityScore := None;
     SealedData.tamperFlags := None;
     SealedData.content := Some (report "A") |}.

(** The envelope [d] after an assignment to [d.content]. *)
Definition withContent (v : JsVal) (d : SealedData.t) : SealedData.t :=
  {| SealedData.sha512 := SealedData.sha512 d;
     SealedData.timestamp := SealedData.timestamp d;
     SealedData.gps := SealedData.gps d;
     SealedData.sealed := SealedData.sealed d;
     SealedData.chainOfCustody := SealedData.chainOfCustody d;
     SealedData.metadata := SealedData.metadata d;
     SealedData.authenticityScore := SealedData.authenticityScore d;
     SealedData.tamperFlags := SealedData.tamperFlags d;
     SealedData.content := Some v |}.

(** The digest [sealForOutput] computes for a payload. *)
Definition contentDigest (v : JsVal) : Result string :=
  match JSON.stringify v with
  | Ok o =>
      Ok (hexOfBytes (WebCrypto.digest WebCrypto.SHA512
            (TextEncoder_encode (match o with Some s => s | None => EmptyString end))))
  | Err e => Err e
  end.

(** A file whose bytes read as [abc] and whose modification time is one
    millisecond past the last valid date. *)
Definition misdatedEvidence : File.t :=
  {| File.name := "evidence.txt"; File.type := "text/plain"; File.size := 3;
     File.lastModified := 8640000000000001;
     File.arrayBuffer := Ok (TextEncoder_encode "abc") |}.

(* ====================================================================== *)
(** * The application: hashing and classifying the evidence files *)
(* ====================================================================== *)

(** [s.startsWith(p)] and [s.endsWith(p)]. *)
Definition startsWith (s p : string) : bool := String.prefix p s.

Definition endsWith (s p : string) : bool :=
  let n := String.length s in
  let m := String.length p in
  (m <=? n)%nat && String.eqb (substring (n - m) m s) p.

(** A [Map] with string keys: its entries in the order in which their
    keys were first set. *)
Module JsMap.
Definition t (V : Type) : Type := list (string * V).

Definition empty {V : Type} : t V := [].

Fixpoint set {V : Type} (key : string) (value : V) (m : t V) : t V :=
  match m with
  | [] => [(key, value)]
  | (k, v) :: rest =>
      if String.eqb k key then (k, value) :: rest
      else (k, v) :: set key value rest
  end.

Fixpoint get {V : Type} (key : string) (m : t V) : option V :=
  match m with
  | [] => None
  | (k, v) :: rest => if String.eqb k key then Some v else get key rest
  end.

Definition keys {V : Type} (m : t V) : list string := map fst m.

Definition values {V : Type} (m : t V) : list V := map snd m.
End JsMap.

Definition calculateSHA256 (file : File.t) : M string :=
  buffer <- lift (File.arrayBuffer file) ;;
  let hashArray := WebCrypto.digest WebCrypto.SHA256 buffer in
  ret (hexOfBytes hashArray).

Definition generateCryptographicSeal (timestamp : string) (geolocation : JsVal)
    (fileHashes : list string) : M string :=
  data <- encodeJSON (JObj [ ("timestamp", JStr timestamp);
                             ("geolocation", geolocation);
                             ("fileHashes", JArr (map JStr fileHashes));
                             ("version", JStr "V5.0");
                             ("architecture", JStr "9-Brain") ]) ;;
  let hashArray := WebCrypto.digest WebCrypto.SHA256 data in
  ret (substring 0 16 (toUpperCase (hexOfBytes hashArray))).

(** The hashing loop of [handleAnalyze]:
    [for (const file of files) fileHashes.set(file.name, await calculateSHA256(file))]. *)
Module handleAnalyze.
Fixpoint hashInto (files : list File.t) (fileHashes : JsMap.t string)
    : M (JsMap.t string) :=
  match files with
  | [] => ret fileHashes
  | file :: rest =>
      hash <- calculateSHA256 file ;;
      hashInto rest (JsMap.set (File.name file) hash fileHashes)
  end.

Definition fileHashes (files : list File.t) : M (JsMap.t string) :=
  hashInto files JsMap.empty.
End handleAnalyze.

(** The values [runOfflineForensics] computes before and while it writes
    the report: the seal, the six lists of files by kind, the hash shown
    for a file and the category shown for it. *)
Module runOfflineForensics.
(** The [geolocation] argument: coordinates, or [null]. *)
Definition geolocationValue (geolocation : option GeolocationCoordinates) : JsVal :=
  match geolocation with
  | None => JNull
  | Some c => JObj [ ("latitude", JNum (latitude c));
                     ("longitude", JNum (longitude c));
                     ("accuracy", JNum (accuracy c)) ]
  end.

Definition cryptoSeal (fileHashes : JsMap.t string)
    (geolocation : option GeolocationCoordinates) : M string :=
  timestamp <- nowISOString ;;
  let hashArray := JsMap.values fileHashes in
  generateCryptographicSeal timestamp (geolocationValue geolocation) hashArray.

Definition isImage (f : File.t) : bool := startsWith (File.type f) "image/".
Definition isAudio (f : File.t) : bool := startsWith (File.type f) "audio/".
Definition isVideo (f : File.t) : bool := startsWith (File.type f) "video/".
Definition isPdf (f : File.t) : bool :=
  String.eqb (File.type f) "application/pdf" || endsWith (File.name f) ".pdf".
Definition isText (f : File.t) : bool :=
  startsWith (File.type f) "text/" || endsWith (File.name f) ".txt".
Definition isOther (f : File.t) : bool :=
  negb (startsWith (File.type f) "image/")
  && negb (startsWith (File.type f) "audio/")
  && negb (startsWith (File.type f) "video/")
  && negb (startsWith (File.type f) "text/")
  && negb (String.eqb (File.type f) "application/pdf").

Definition imageFiles (files : list File.t) : list File.t := filter isImage files.
Definition audioFiles (files : list File.t) : list File.t := filter isAudio files.
Definition videoFiles (files : list File.t) : list File.t := filter isVideo files.
Definition pdfFiles (files : list File.t) : list File.t := filter isPdf files.
Definition textFiles (files : list File.t) : list File.t := filter isText files.
Definition otherFiles (files : list File.t) : list File.t := filter isOther files.

(** The count the report gives as [Other Documents]. *)
Definition otherDocuments (files : list File.t) : nat :=
  List.length (textFiles files) + List.length (otherFiles files).

(** [fileHashes.get(file.name) || 'HASH_CALCULATION_PENDING']. *)
Definition shownHash (fileHashes : JsMap.t string) (file : File.t) : string :=
  match JsMap.get (File.name file) fileHashes with
  | Some hash =>
      if String.eqb hash EmptyString then "HASH_CALCULATION_PENDING" else hash
  | None => "HASH_CALCULATION_PENDING"
  end.

(** The category line of a file in the evidence breakdown. *)
Definition category (file : File.t) : string :=
  if startsWith (File.type file) "image/" then "Visual Evidence (Image)"
  else if String.eqb (File.type file) "application/pdf"
          || endsWith (File.name file) ".pdf" then "Document Evidence (PDF)"
  else if startsWith (File.type file) "text/" then "Text Evidence"
  else if startsWith (File.type file) "audio/" then "Audio Evidence"
  else if startsWith (File.type file) "video/" then "Video Evidence"
  else "Other Evidence".
End runOfflineForensics.

(* ====================================================================== *)
(** * Vocabulary of the further statements *)
(* ====================================================================== *)

(** ** Shape of digests *)

Fixpoint allChars (p : ascii -> bool) (s : string) : bool :=
  match s with
  | EmptyString => true
  | String c rest => p c && allChars p rest
  end.

Definition isDigit (c : ascii) : bool :=
  let n := nat_of_ascii c in (48 <=? n)%nat && (n <=? 57)%nat.

(** The characters [0-9a-f], and the characters [0-9A-F]. *)
Definition isLowerHex (c : ascii) : bool :=
  let n := nat_of_ascii c in isDigit c || (97 <=? n)%nat && (n <=? 102)%nat.

Definition isUpperHex (c : ascii) : bool :=
  let n := nat_of_ascii c in isDigit c || (65 <=? n)%nat && (n <=? 70)%nat.

(** ** Seals recomputed from the fields of an envelope *)

Definition textOf (r : Result (option string)) : string :=
  match r with
  | Ok (Some s) => s
  | _ => EmptyString
  end.

(** The custody signature [sealFile] derives from a digest, a timestamp
    and the coordinates. *)
Definition custodySignature (sha512 timestamp : string)
    (gps : option GeolocationCoordinates) : string :=
  substring 0 16 (toUpperCase (hexOfBytes (WebCrypto.digest WebCrypto.SHA256
    (TextEncoder_encode
       (textOf (JSON.stringify (JObj [ ("sha512", JStr sha512);
                                       ("timestamp", JStr timestamp);
                                       ("gps", SealedData.gpsValue gps) ]))))))).

(** The custody signature [sealForOutput] derives from a digest, a
    timestamp and the destination. *)
Definition outputCustodySignature (sha512 timestamp destination : string) : string :=
  substring 0 16 (toUpperCase (hexOfBytes (WebCrypto.digest WebCrypto.SHA256
    (TextEncoder_encode
       (textOf (JSON.stringify (JObj [ ("sha512", JStr sha512);
                                       ("timestamp", JStr timestamp);
                                       ("destination", JStr destination) ]))))))).

(** ** Values that [JSON.stringify] refuses *)

Fixpoint holdsBigInt (v : JsVal) : bool :=
  match v with
  | JBigInt _ => true
  | JArr items =>
      (fix any (l : list JsVal) : bool :=
         match l with
         | [] => false
         | x :: rest => holdsBigInt x || any rest
         end) items
  | JObj props =>
      (fix any (l : list (string * JsVal)) : bool :=
         match l with
         | [] => false
         | (_, x) :: rest => holdsBigInt x || any rest
         end) props
  | _ => false
  end.

Definition bigIntError : JsError :=
  {| errName := "TypeError";
     errMessage := "Do not know how to serialize a BigInt" |}.

(** ** Sequences of calls to the gates *)






(** ** Files by name and by kind *)

(** The SHA-256 digest of the bytes of a readable file, in hexadecimal. *)
Definition contentHash (file : File.t) : string :=
  match File.arrayBuffer file with
  | Ok buffer => hexOfBytes (WebCrypto.digest WebCrypto.SHA256 buffer)
  | Err _ => EmptyString
  end.

Definition readable (file : File.t) : bool :=
  match File.arrayBuffer file with
  | Ok _ => true
  | Err _ => false
  end.

(** The last file of a list that bears a given name. *)
Definition lastNamed (name : string) (files : list File.t) : option File.t :=
  find (fun g => String.eqb (File.name g) name) (rev files).

(** The first file of a list that cannot be read. *)
Definition firstUnreadable (files : list File.t) : option File.t :=
  find (fun g => negb (readable g)) files.

Definition count (b : bool) : nat := if b then 1 else 0.

(** In how many of the six lists of [runOfflineForensics] a file stands. *)
Definition listsHolding (f : File.t) : nat :=
  count (runOfflineForensics.isImage f) + count (runOfflineForensics.isAudio f)
  + count (runOfflineForensics.isVideo f) + count (runOfflineForensics.isPdf f)
  + count (runOfflineForensics.isText f) + count (runOfflineForensics.isOther f).

(** A packet marked sealed whose custody signature is empty. *)
Definition unsignedPacket : SealedData.t :=
  {| SealedData.sha512 := "ab12"; SealedData.timestamp := "2025-01-22T13:13:16.364Z";
     SealedData.gps := None; SealedData.sealed := true;
     SealedData.chainOfCustody := EmptyString;
     SealedData.metadata := None; SealedData.authenticityScore := None;
     SealedData.tamperFlags := None; SealedData.content := Some (JStr "summary") |}.

(** Two files that bear the same name, and a recording. *)
Definition draft : File.t :=
  {| File.name := "notes.txt"; File.type := EmptyString; File.size := 3;
     File.lastModified := 1737551596000;
     File.arrayBuffer := Ok (TextEncoder_encode "abc") |}.

Definition revision : File.t :=
  {| File.name := "notes.txt"; File.type := "text/plain"; File.size := 3;
     File.lastModified := 1737551597000;
     File.arrayBuffer := Ok (TextEncoder_encode "abd") |}.

Definition recording : File.t :=
  {| File.name := "call.mp3"; File.type := "audio/mpeg"; File.size := 0;
     File.lastModified := 1737551598000;
     File.arrayBuffer := Ok [] |}.

(** ** Envelopes of outputs *)

(** The envelope [sealForOutput] builds from the JSON text of the data. *)
Definition outputEnvelope (data : JsVal) (o : option string)
    (timestamp destination : string) : SealedData.t :=
  let sha := hexOfBytes (WebCrypto.digest WebCrypto.SHA512
               (TextEncoder_encode (match o with Some s => s | None => EmptyString end))) in
  {| SealedData.sha512 := sha;
     SealedData.timestamp := timestamp;
     SealedData.gps := None;
     SealedData.sealed := true;
     SealedData.chainOfCustody := outputCustodySignature sha timestamp destination;
     SealedData.metadata := None;
     SealedData.authenticityScore := None;
     SealedData.tamperFlags := None;
     SealedData.content := Some data |}.

(* ====================================================================== *)
(** * Seal validation of values whose property reads run code *)
(* ====================================================================== *)

(** A value of type [any] as [validateSeal] receives it: plain data, or
    an object whose property reads run code, that is an object with
    accessor properties or a [Proxy] with a [get] trap over an object.
    [get key] is the read of the property [key]: it runs in the world,
    and returns a value or throws.  Such an object is truthy and its
    [typeof] is [object]. *)
Inductive JsAny : Type :=
| Plain (v : JsVal)
| Live (get : string -> World -> Result JsAny * World).

(** The [TypeError] of a property read on [null] or [undefined]. *)
Definition cannotRead (base key : string) : JsError :=
  {| errName := "TypeError";
     errMessage := "Cannot read properties of " ++ base
                     ++ " (reading '" ++ key ++ "')" |}.

Module Any.
Definition typeof (v : JsAny) : string :=
  match v with
  | Plain d => typeof d
  | Live _ => "object"
  end.

(** [!v]. *)
Definition falsy (v : JsAny) : bool :=
  match v with
  | Plain d => falsy d
  | Live _ => false
  end.

(** [v === true]. *)
Definition isTrue (v : JsAny) : bool :=
  match v with
  | Plain d => isTrue d
  | Live _ => false
  end.

(** [v.key], for a key that is none of the built-in properties of the
    primitives: on [null] and [undefined] the read throws; on an object
    whose reads run code it runs that code. *)
Definition readProp (v : JsAny) (key : string) : M JsAny :=
  match v with
  | Plain JUndefined => throw (cannotRead "undefined" key)
  | Plain JNull => throw (cannotRead "null" key)
  | Plain d => ret (Plain (getProp d key))
  | Live get => get key
  end.

(** [validateSeal(data: any)], statement by statement; the three reads
    of the last test are made from left to right and stop at the first
    falsy one. *)
Definition validateSeal (data : JsAny) : M SealValidationResult :=
  if falsy data || negb (String.eqb (typeof data) "object") then
    ret {| valid := false; reason := Some "Data is not an object";
           auditEntry := None |}
  else
    sealed <- readProp data "sealed" ;;
    if negb (isTrue sealed) then
      ret {| valid := false; reason := Some "Data is not marked as sealed";
             auditEntry := None |}
    else
      incomplete <-
        (sha512 <- readProp data "sha512" ;;
         if falsy sha512 then ret true
         else
           (timestamp <- readProp data "timestamp" ;;
            if falsy timestamp then ret true
            else
              (chainOfCustody <- readProp data "chainOfCustody" ;;
               ret (falsy chainOfCustody)))) ;;
      if incomplete : bool then
        ret {| valid := false;
               reason := Some "Missing required seal fields (sha512, timestamp, or chainOfCustody)";
               auditEntry := None |}
      else
        ret {| valid := true; reason := None; auditEntry := None |}.
End Any.




(** A packet whose reads are logged and all return. *)
Definition tracedPacket : JsAny :=
  Live (fun key w =>
          (Ok (if String.eqb key "sealed" then Plain (JBool true)
               else Plain (JStr "ab12")),
           tick w)).

(* ====================================================================== *)
(** * Properties of the platform functions *)
(* ====================================================================== *)

(** ** Test vectors of the platform functions *)

Example round_constants :
  (nth 0 WebCrypto.K256 0 = 0x428a2f98 /\ nth 63 WebCrypto.K256 0 = 0xc67178f2
   /\ nth 0 WebCrypto.K512 0 = 0x428a2f98d728ae22
   /\ nth 79 WebCrypto.K512 0 = 0x6c44198c4a475817
   /\ nth 0 WebCrypto.H256 0 = 0x6a09e667
   /\ nth 7 WebCrypto.H512 0 = 0x5be0cd19137e2179)%Z.
Proof. repeat split. Qed.

Example sha256_abc :
  hexOfBytes (WebCrypto.digest WebCrypto.SHA256 (TextEncoder_encode "abc"))
  = "ba7816bf8f01cfea414140de5dae2223b00361a396177a9cb410ff61f20015ad".
Proof. vm_compute. reflexivity. Qed.

Example sha512_abc :
  hexOfBytes (WebCrypto.digest WebCrypto.SHA512 (TextEncoder_encode "abc"))
  = abcDigest.
Proof. vm_compute. reflexivity. Qed.

(** Messages of two blocks (FIPS 180-4 test vectors). *)
Example sha256_two_blocks :
  hexOfBytes (WebCrypto.digest WebCrypto.SHA256
    (TextEncoder_encode "abcdbcdecdefdefgefghfghighijhijkijkljklmklmnlmnomnopnopq"))
  = "248d6a61d20638b8e5c026930c3e6039a33ce45964ff2167f6ecedd419db06c1".
Proof. vm_compute. reflexivity. Qed.

Example sha512_two_blocks :
  hexOfBytes (WebCrypto.digest WebCrypto.SHA512
    (TextEncoder_encode
       "abcdefghbcdefghicdefghijdefghijkefghijklfghijklmghijklmnhijklmnoijklmnopjklmnopqklmnopqrlmnopqrsmnopqrstnopqrstu"))
  = "8e959b75dae313da8cf4f72814fc143f8f7779c6eb9f7fa17299aeadb6889018501d289e4900f7e4331b99dec4b5433ac7d329eeb6dd26545e96e55b874be909".
Proof. vm_compute. reflexivity. Qed.

Example toString_examples :
  map JsNum.toString
    [ Finite false 407128 (-4); Finite true 74006 (-3); Finite false 10 0;
      Finite false 95 0; Finite false 1 21; Finite false 5 (-7);
      Finite false 123 (-8); Finite false 0 3; Finite false 12 25 ]
  = [ "40.7128"; "-74.006"; "10"; "95"; "1e+21"; "5e-7"; "0.00000123"; "0";
      "1.2e+26" ].
Proof. reflexivity. Qed.

Example isoFormat_examples :
  map JsDate.isoFormat
    [ 0; 1737551596364; 951782400000; 1700000000000; -1; 253402300800000;
      -62198755200000 ]%Z
  = [ "1970-01-01T00:00:00.000Z"; "2025-01-22T13:13:16.364Z";
      "2000-02-29T00:00:00.000Z"; "2023-11-14T22:13:20.000Z";
      "1969-12-31T23:59:59.999Z"; "+010000-01-01T00:00:00.000Z";
      "-000001-01-01T00:00:00.000Z" ].
Proof. reflexivity. Qed.

Example stringify_custody :
  JSON.stringify
    (JObj [ ("sha512", JStr "ab12"); ("timestamp", JStr "2025-01-22T13:13:16.364Z");
            ("gps", JUndefined) ])
  = Ok (Some ("{" ++ JSON.quote "sha512" ++ ":" ++ JSON.quote "ab12" ++ ","
                ++ JSON.quote "timestamp" ++ ":"
                ++ JSON.quote "2025-01-22T13:13:16.364Z" ++ "}")).
Proof. reflexivity. Qed.

Lemma append_nonempty_r (s t : string) : t <> EmptyString -> s ++ t <> EmptyString.
Proof.
  destruct s as [| c s]; simpl; [auto | discriminate].
Qed.

Lemma eqb_empty_false (s : string) :
  s <> EmptyString -> String.eqb s EmptyString = false.
Proof.
  intros H. destruct s; [contradiction | reflexivity].
Qed.

Lemma hexOfBytes_nonempty (bs : list byte) :
  bs <> [] -> hexOfBytes bs <> EmptyString.
Proof.
  destruct bs as [| b rest]; [contradiction | simpl; discriminate].
Qed.

Lemma toUpperCase_nonempty (s : string) :
  s <> EmptyString -> toUpperCase s <> EmptyString.
Proof.
  destruct s; [contradiction | simpl; discriminate].
Qed.

Lemma substring_prefix_nonempty (n : nat) (s : string) :
  s <> EmptyString -> substring 0 (S n) s <> EmptyString.
Proof.
  destruct s; [contradiction | simpl; discriminate].
Qed.

Lemma be_bytes_length (n : nat) (x : Z) :
  List.length (WebCrypto.be_bytes n x) = n.
Proof.
  induction n as [| k IH]; simpl; [reflexivity | now rewrite IH].
Qed.

(** A digest has eight words. *)
Lemma digest_length (alg : WebCrypto.Sha2) (data : list byte) :
  List.length (WebCrypto.digest alg data) = (8 * WebCrypto.wordBytes alg)%nat.
Proof.
  unfold WebCrypto.digest, WebCrypto.hash, WebCrypto.digestZ.
  rewrite length_map.
  generalize (fold_left (WebCrypto.compress alg)
                (WebCrypto.chunks (List.length (WebCrypto.pad alg (map Z_of_byte data)))
                   (WebCrypto.blockBytes alg) (WebCrypto.pad alg (map Z_of_byte data)))
                (WebCrypto.initial alg)).
  intros s. unfold WebCrypto.stateWords.
  cbn [flat_map]. rewrite !length_app, !be_bytes_length. simpl. lia.
Qed.

Lemma sha512_length (data : list byte) :
  List.length (WebCrypto.digest WebCrypto.SHA512 data) = 64%nat.
Proof. rewrite digest_length. reflexivity. Qed.

Lemma sha256_length (data : list byte) :
  List.length (WebCrypto.digest WebCrypto.SHA256 data) = 32%nat.
Proof. rewrite digest_length. reflexivity. Qed.

Lemma sha512_hex_nonempty (data : list byte) :
  hexOfBytes (WebCrypto.digest WebCrypto.SHA512 data) <> EmptyString.
Proof.
  apply hexOfBytes_nonempty. intros E.
  pose proof (sha512_length data) as L. rewrite E in L. discriminate.
Qed.

(** The sixteen-character custody signature cut from a SHA-256 digest. *)
Lemma custody_nonempty (data : list byte) :
  substring 0 16 (toUpperCase (hexOfBytes (WebCrypto.digest WebCrypto.SHA256 data)))
  <> EmptyString.
Proof.
  apply substring_prefix_nonempty, toUpperCase_nonempty, hexOfBytes_nonempty.
  intros E. pose proof (sha256_length data) as L. rewrite E in L. discriminate.
Qed.

Lemma isoFormat_nonempty (t : Z) : JsDate.isoFormat t <> EmptyString.
Proof.
  unfold JsDate.isoFormat. destruct (JsDate.civil _) as [[y m] d].
  apply append_nonempty_r. discriminate.
Qed.

Lemma toISOString_valid (t : Z) :
  JsDate.validTime t = true -> JsDate.toISOString t = Ok (JsDate.isoFormat t).
Proof. unfold JsDate.toISOString. now intros ->. Qed.

Lemma toISOString_invalid (t : Z) :
  JsDate.validTime t = false ->
  JsDate.toISOString t
  = Err {| errName := "RangeError"; errMessage := "Invalid time value" |}.
Proof. unfold JsDate.toISOString. now intros ->. Qed.

(* ====================================================================== *)
(** * Running the audit log and the gates *)
(* ====================================================================== *)

Arguments WebCrypto.digest : simpl never.
Arguments JsDate.isoFormat : simpl never.

Section MonadLaws.
Context {A B : Type}.

Lemma bind_ok (m : M A) (k : A -> M B) (w w' : World) (a : A) :
  m w = (Ok a, w') -> bind m k w = k a w'.
Proof. unfold bind. now intros ->. Qed.

Lemma bind_err (m : M A) (k : A -> M B) (w w' : World) (e : JsError) :
  m w = (Err e, w') -> bind m k w = (Err e, w').
Proof. unfold bind. now intros ->. Qed.

Lemma tryCatch_ok (m : M A) (h : JsError -> M A) (w w' : World) (a : A) :
  m w = (Ok a, w') -> tryCatch m h w = (Ok a, w').
Proof. unfold tryCatch. now intros ->. Qed.

Lemma tryCatch_err (m : M A) (h : JsError -> M A) (w w' : World) (e : JsError) :
  m w = (Err e, w') -> tryCatch m h w = h e w'.
Proof. unfold tryCatch. now intros ->. Qed.

(** Reading off the value and the world of a run that returned. *)
Lemma run_inj (a a' : A) (w w' : World) :
  (Ok a, w) = (Ok a', w') -> a = a' /\ w = w'.
Proof. intros H. split; congruence. Qed.

Lemma lift_run (r : Result A) (w : World) : lift r w = (r, w).
Proof. reflexivity. Qed.

End MonadLaws.

Lemma withTimestamp_id (e : AuditLogEntry.t) :
  AuditLogEntry.withTimestamp (AuditLogEntry.timestamp e) e = e.
Proof. destruct e; reflexivity. Qed.

Lemma log_run (e : AuditLogEntry.t) (w : World) :
  AuditLogEntry.timestamp e <> EmptyString ->
  SealAuditLog.log e w = (Ok tt, logged e w).
Proof.
  intros H. unfold SealAuditLog.log, bind.
  rewrite (eqb_empty_false _ H). cbn. now rewrite withTimestamp_id.
Qed.

Lemma log_run_unstamped (e : AuditLogEntry.t) (w : World) :
  AuditLogEntry.timestamp e = EmptyString ->
  SealAuditLog.log e w
  = (Ok tt, addConsole auditTag e
              (addLog (AuditLogEntry.withTimestamp
                         (JsDate.isoFormat (clock w (reads w))) e) (tick w))).
Proof.
  intros H. unfold SealAuditLog.log, bind. rewrite H. reflexivity.
Qed.

Lemma log_appends (e : AuditLogEntry.t) (w : World) :
  exists w',
    SealAuditLog.log e w = (Ok tt, w')
    /\ logs w' = (logs w ++ [AuditLogEntry.withTimestamp (stampFor e w) e])%list
    /\ network w' = network w.
Proof.
  unfold SealAuditLog.log, stampFor, bind.
  destruct (String.eqb (AuditLogEntry.timestamp e) EmptyString);
    cbn; eexists; repeat split; reflexivity.
Qed.

Lemma now_run (w : World) :
  nowISOString w = (Ok (JsDate.isoFormat (clock w (reads w))), tick w).
Proof. reflexivity. Qed.

Lemma nowText_nonempty (w : World) : nowText w <> EmptyString.
Proof. apply isoFormat_nonempty. Qed.

(** ** Gate 1 *)

Lemma stringify_custody_ok (a b : string) (g : option GeolocationCoordinates) :
  exists s,
    JSON.stringify (JObj [ ("sha512", JStr a); ("timestamp", JStr b);
                           ("gps", SealedData.gpsValue g) ]) = Ok (Some s).
Proof.
  destruct g as [g |]; eexists; reflexivity.
Qed.

Lemma generateChainOfCustody_run (sha512 timestamp : string)
    (gps : option GeolocationCoordinates) (w : World) :
  exists c,
    InputSealInterceptor.generateChainOfCustody sha512 timestamp gps w = (Ok c, w)
    /\ c <> EmptyString.
Proof.
  unfold InputSealInterceptor.generateChainOfCustody, encodeJSON, bind, lift, ret.
  destruct (stringify_custody_ok sha512 timestamp gps) as [s ->].
  eexists; (split; [reflexivity | apply custody_nonempty]).
Qed.

(** One step of a run: the first action of a sequence returns [a] and
    leaves the world [w']. *)
Ltac run_bind w' a tac :=
  rewrite (bind_ok _ _ _ w' a) by tac; cbv beta.

Lemma generateSHA512_run (file : File.t) (buffer : list byte) (w : World) :
  File.arrayBuffer file = Ok buffer ->
  InputSealInterceptor.generateSHA512 file w
  = (Ok (hexOfBytes (WebCrypto.digest WebCrypto.SHA512 buffer)), w).
Proof.
  intros H. unfold InputSealInterceptor.generateSHA512.
  run_bind w buffer ltac:(rewrite lift_run, H; reflexivity). reflexivity.
Qed.

Lemma generateSHA512_fail (file : File.t) (e : JsError) (w : World) :
  File.arrayBuffer file = Err e ->
  InputSealInterceptor.generateSHA512 file w = (Err e, w).
Proof.
  intros H. unfold InputSealInterceptor.generateSHA512.
  apply bind_err. rewrite lift_run, H. reflexivity.
Qed.

Lemma extractMetadata_run (file : File.t) (w : World) :
  JsDate.validTime (File.lastModified file) = true ->
  InputSealInterceptor.extractMetadata file w = (Ok (fileMetadata file), w).
Proof.
  intros H. unfold InputSealInterceptor.extractMetadata.
  run_bind w (JsDate.isoFormat (File.lastModified file))
    ltac:(rewrite lift_run, (toISOString_valid _ H); reflexivity).
  reflexivity.
Qed.

Lemma extractMetadata_fail (file : File.t) (w : World) :
  JsDate.validTime (File.lastModified file) = false ->
  InputSealInterceptor.extractMetadata file w = (Err invalidTime, w).
Proof.
  intros H. unfold InputSealInterceptor.extractMetadata.
  apply bind_err. rewrite lift_run, (toISOString_invalid _ H). reflexivity.
Qed.

(** A readable file with a valid modification date is sealed. *)
Lemma sealFile_success (file : File.t) (geolocation : option GeolocationPosition)
    (w : World) (buffer : list byte) :
  File.arrayBuffer file = Ok buffer ->
  JsDate.validTime (File.lastModified file) = true ->
  let sha := hexOfBytes (WebCrypto.digest WebCrypto.SHA512 buffer) in
  exists c,
    c <> EmptyString
    /\ InputSealInterceptor.sealFile file geolocation w
       = (Ok {| SealedData.sha512 := sha;
                SealedData.timestamp := nowText w;
                SealedData.gps := gpsOf geolocation;
                SealedData.sealed := true;
                SealedData.chainOfCustody := c;
                SealedData.metadata :=
                  Some (fileMetadata file);
                SealedData.authenticityScore := Some (numberOfN 95);
                SealedData.tamperFlags := Some [];
                SealedData.content := None |},
          logged (sealCreated file sha (nowText w)) (tick w)).
Proof.
  intros Hbuf Hdate sha.
  destruct (generateChainOfCustody_run sha (nowText w) (gpsOf geolocation) (tick w))
    as (c & Hc & Hne).
  exists c. split; [exact Hne |].
  unfold InputSealInterceptor.sealFile.
  apply tryCatch_ok.
  run_bind w sha ltac:(apply generateSHA512_run; exact Hbuf).
  run_bind (tick w) (nowText w) ltac:(apply now_run).
  run_bind (tick w) (fileMetadata file) ltac:(apply extractMetadata_run; exact Hdate).
  run_bind (tick w) (numberOfN 95) ltac:(reflexivity).
  run_bind (tick w) (@nil string) ltac:(reflexivity).
  run_bind (tick w) c ltac:(exact Hc).
  run_bind (logged (sealCreated file sha (nowText w)) (tick w)) tt
    ltac:(apply log_run, nowText_nonempty).
  reflexivity.
Qed.

(** The catch block of [sealFile]: one failure entry, then the violation. *)
Lemma sealFile_catch (file : File.t) (e : JsError) (w : World) :
  (now <- nowISOString ;;
   SealAuditLog.log (sealFailed file now (errMessage e)) ;;
   throw (SealViolationError ("Failed to seal file: " ++ errMessage e))) w
  = (@Err SealedData.t (SealViolationError ("Failed to seal file: " ++ errMessage e)),
     logged (sealFailed file (nowText w) (errMessage e)) (tick w)).
Proof.
  run_bind (tick w) (nowText w) ltac:(apply now_run).
  run_bind (logged (sealFailed file (nowText w) (errMessage e)) (tick w)) tt
    ltac:(apply log_run, nowText_nonempty).
  reflexivity.
Qed.

(** A file whose bytes cannot be read is not sealed. *)
Lemma sealFile_unreadable (file : File.t) (geolocation : option GeolocationPosition)
    (w : World) (e : JsError) :
  File.arrayBuffer file = Err e ->
  InputSealInterceptor.sealFile file geolocation w
  = (Err (SealViolationError ("Failed to seal file: " ++ errMessage e)),
     logged (sealFailed file (nowText w) (errMessage e)) (tick w)).
Proof.
  intros H. unfold InputSealInterceptor.sealFile.
  rewrite (tryCatch_err _ _ w w e)
    by (apply bind_err, generateSHA512_fail, H).
  apply sealFile_catch.
Qed.

(** Nor is a file whose modification date is not a valid date, although
    its bytes are read and hashed. *)
Lemma sealFile_invalid_date (file : File.t) (geolocation : option GeolocationPosition)
    (w : World) (buffer : list byte) :
  File.arrayBuffer file = Ok buffer ->
  JsDate.validTime (File.lastModified file) = false ->
  InputSealInterceptor.sealFile file geolocation w
  = (Err (SealViolationError ("Failed to seal file: " ++ errMessage invalidTime)),
     logged (sealFailed file (nowText (tick w)) (errMessage invalidTime))
       (tick (tick w))).
Proof.
  intros Hbuf Hdate. unfold InputSealInterceptor.sealFile.
  rewrite (tryCatch_err _ _ w (tick w) invalidTime).
  - apply sealFile_catch.
  - run_bind w (hexOfBytes (WebCrypto.digest WebCrypto.SHA512 buffer))
      ltac:(apply generateSHA512_run; exact Hbuf).
    run_bind (tick w) (nowText w) ltac:(apply now_run).
    apply bind_err, extractMetadata_fail, Hdate.
Qed.

(** ** Gate 2 *)

Lemma validateAndPass_unsealed (data : SealedData.t) (fromModule toModule : string)
    (w : World) :
  SealedData.sealed data = false ->
  InternalSealMiddleware.validateAndPass data fromModule toModule w
  = (Err (SealViolationError
            ("Unsealed data rejected in transit from " ++ fromModule
               ++ " to " ++ toModule)),
     logged (transitRejected (nowText w) fromModule toModule) (tick w)).
Proof.
  intros H. unfold InternalSealMiddleware.validateAndPass. rewrite H. cbn [negb].
  run_bind (tick w) (nowText w) ltac:(apply now_run).
  run_bind (logged (transitRejected (nowText w) fromModule toModule) (tick w)) tt
    ltac:(apply log_run, nowText_nonempty).
  reflexivity.
Qed.

Lemma validateAndPass_broken (data : SealedData.t) (fromModule toModule : string)
    (w : World) :
  SealedData.sealed data = true ->
  InternalSealMiddleware.verifySealIntegrity data = false ->
  InternalSealMiddleware.validateAndPass data fromModule toModule w
  = (Err (SealIntegrityError
            "Seal integrity check failed - possible tampering detected"),
     logged (integrityFailed (nowText w) (SealedData.sha512 data)
               fromModule toModule) (tick w)).
Proof.
  intros H V. unfold InternalSealMiddleware.validateAndPass.
  rewrite H, V. cbn [negb].
  run_bind (tick w) (nowText w) ltac:(apply now_run).
  run_bind (logged (integrityFailed (nowText w) (SealedData.sha512 data)
                      fromModule toModule) (tick w)) tt
    ltac:(apply log_run, nowText_nonempty).
  reflexivity.
Qed.

Lemma validateAndPass_valid (data : SealedData.t) (fromModule toModule : string)
    (w : World) :
  SealedData.sealed data = true ->
  InternalSealMiddleware.verifySealIntegrity data = true ->
  InternalSealMiddleware.validateAndPass data fromModule toModule w
  = (Ok data, logged (sealVerified (nowText w) (SealedData.sha512 data)) (tick w)).
Proof.
  intros H V. unfold InternalSealMiddleware.validateAndPass.
  rewrite H, V. cbn [negb].
  run_bind (tick w) (nowText w) ltac:(apply now_run).
  run_bind (logged (sealVerified (nowText w) (SealedData.sha512 data)) (tick w)) tt
    ltac:(apply log_run, nowText_nonempty).
  reflexivity.
Qed.

(** Every call of the internal gate reads the clock once and appends
    exactly one entry; it returns the data exactly when the data is
    marked sealed and has its three seal fields. *)
Lemma validateAndPass_outcome (data : SealedData.t) (fromModule toModule : string)
    (w : World) :
  exists r e,
    InternalSealMiddleware.validateAndPass data fromModule toModule w
    = (r, logged e (tick w))
    /\ (r = Ok data <->
        SealedData.sealed data = true
        /\ InternalSealMiddleware.verifySealIntegrity data = true).
Proof.
  destruct (SealedData.sealed data) eqn:Hs.
  - destruct (InternalSealMiddleware.verifySealIntegrity data) eqn:Hv.
    + eexists. eexists. split; [now apply validateAndPass_valid |]. tauto.
    + eexists. eexists. split; [now apply validateAndPass_broken |].
      split; [discriminate | intros [_ H]; discriminate].
  - eexists. eexists. split; [now apply validateAndPass_unsealed |].
    split; [discriminate | intros [H _]; discriminate].
Qed.

Lemma verifySealIntegrity_true (data : SealedData.t) :
  InternalSealMiddleware.verifySealIntegrity data = true
  <-> SealedData.sha512 data <> EmptyString
      /\ SealedData.timestamp data <> EmptyString
      /\ SealedData.chainOfCustody data <> EmptyString.
Proof.
  unfold InternalSealMiddleware.verifySealIntegrity.
  destruct (SealedData.sha512 data), (SealedData.timestamp data),
    (SealedData.chainOfCustody data); cbn; intuition congruence.
Qed.

(** ** Gate 3 *)

Lemma validateBeforeTransmission_unsealed (data : SealedData.t)
    (destination : string) (w : World) :
  SealedData.sealed data = false ->
  OutputSealEnforcer.validateBeforeTransmission data destination w
  = (Err (SealViolationError
            ("Cannot send unsealed data to " ++ destination
               ++ ". All external transmissions must be sealed.")),
     logged (transmissionRejected (nowText w) destination) (tick w)).
Proof.
  intros H. unfold OutputSealEnforcer.validateBeforeTransmission.
  rewrite H. cbn [negb].
  run_bind (tick w) (nowText w) ltac:(apply now_run).
  run_bind (logged (transmissionRejected (nowText w) destination) (tick w)) tt
    ltac:(apply log_run, nowText_nonempty).
  reflexivity.
Qed.

Lemma validateBeforeTransmission_sealed (data : SealedData.t)
    (destination : string) (w : World) :
  SealedData.sealed data = true ->
  OutputSealEnforcer.validateBeforeTransmission data destination w
  = (Ok tt,
     logged (transmissionValidated (nowText w) (SealedData.sha512 data) destination)
       (tick w)).
Proof.
  intros H. unfold OutputSealEnforcer.validateBeforeTransmission.
  rewrite H. cbn [negb].
  run_bind (tick w) (nowText w) ltac:(apply now_run).
  apply log_run, nowText_nonempty.
Qed.

Lemma stringify_output_custody_ok (a b c : string) :
  exists s,
    JSON.stringify (JObj [ ("sha512", JStr a); ("timestamp", JStr b);
                           ("destination", JStr c) ]) = Ok (Some s).
Proof. eexists; reflexivity. Qed.

Lemma encodeJSON_run (v : JsVal) (o : option string) (w : World) :
  JSON.stringify v = Ok o ->
  encodeJSON v w
  = (Ok (TextEncoder_encode (match o with Some s => s | None => EmptyString end)), w).
Proof.
  intros H. unfold encodeJSON.
  run_bind w o ltac:(rewrite lift_run, H; reflexivity). reflexivity.
Qed.

Lemma encodeJSON_fail (v : JsVal) (e : JsError) (w : World) :
  JSON.stringify v = Err e -> encodeJSON v w = (Err e, w).
Proof.
  intros H. unfold encodeJSON. apply bind_err. rewrite lift_run, H. reflexivity.
Qed.

(** Data that [JSON.stringify] accepts is sealed for output; the envelope
    carries the data as its content. *)
Lemma sealForOutput_success (data : JsVal) (destination : string) (w : World)
    (o : option string) :
  JSON.stringify data = Ok o ->
  let sha := hexOfBytes (WebCrypto.digest WebCrypto.SHA512
               (TextEncoder_encode (match o with Some s => s | None => EmptyString end))) in
  exists c,
    c <> EmptyString
    /\ OutputSealEnforcer.sealForOutput data destination w
       = (Ok {| SealedData.sha512 := sha;
                SealedData.timestamp := nowText w;
                SealedData.gps := None;
                SealedData.sealed := true;
                SealedData.chainOfCustody := c;
                SealedData.metadata := None;
                SealedData.authenticityScore := None;
                SealedData.tamperFlags := None;
                SealedData.content := Some data |},
          logged (outputSealed (nowText w) sha destination) (tick w)).
Proof.
  intros Hs sha.
  destruct (stringify_output_custody_ok sha (nowText w) destination) as [s Hc].
  eexists. split; [apply (custody_nonempty (TextEncoder_encode s)) |].
  unfold OutputSealEnforcer.sealForOutput. apply tryCatch_ok.
  run_bind (tick w) (nowText w) ltac:(apply now_run).
  run_bind (tick w)
    (TextEncoder_encode (match o with Some s => s | None => EmptyString end))
    ltac:(apply encodeJSON_run; exact Hs).
  run_bind (tick w) (TextEncoder_encode s)
    ltac:(apply (encodeJSON_run _ (Some s)); exact Hc).
  run_bind (logged (outputSealed (nowText w) sha destination) (tick w)) tt
    ltac:(apply log_run, nowText_nonempty).
  reflexivity.
Qed.

Lemma sealForOutput_fail (data : JsVal) (destination : string) (w : World)
    (e : JsError) :
  JSON.stringify data = Err e ->
  OutputSealEnforcer.sealForOutput data destination w
  = (Err (SealViolationError ("Failed to seal output: " ++ errMessage e)),
     logged (outputFailed (nowText (tick w)) destination (errMessage e))
       (tick (tick w))).
Proof.
  intros Hs. unfold OutputSealEnforcer.sealForOutput.
  rewrite (tryCatch_err _ _ w (tick w) e).
  - run_bind (tick (tick w)) (nowText (tick w)) ltac:(apply now_run).
    run_bind (logged (outputFailed (nowText (tick w)) destination (errMessage e))
                (tick (tick w))) tt
      ltac:(apply log_run, nowText_nonempty).
    reflexivity.
  - run_bind (tick w) (nowText w) ltac:(apply now_run).
    apply bind_err, encodeJSON_fail, Hs.
Qed.

(** ** Observing a world *)

Lemma logs_logged (e : AuditLogEntry.t) (w : World) :
  logs (logged e w) = (logs w ++ [e])%list.
Proof. reflexivity. Qed.

Lemma logs_tick (w : World) : logs (tick w) = logs w.
Proof. reflexivity. Qed.

(** ** The sample file, sealed *)

Example sealFile_evidence :
  InputSealInterceptor.sealFile evidence None world0 = (Ok sealedEvidence, world1).
Proof. vm_compute. reflexivity. Qed.

(* ====================================================================== *)
(** * Sealing and verification *)
(* ====================================================================== *)

(** Whatever [sealFile] returns was built from a readable file with a
    valid modification date. *)
Lemma sealFile_returns_inv (file : File.t) (geolocation : option GeolocationPosition)
    (w w' : World) (d : SealedData.t) :
  InputSealInterceptor.sealFile file geolocation w = (Ok d, w') ->
  exists buffer,
    File.arrayBuffer file = Ok buffer
    /\ JsDate.validTime (File.lastModified file) = true.
Proof.
  intros H.
  destruct (File.arrayBuffer file) as [buffer | e] eqn:Hbuf.
  - exists buffer. split; [reflexivity |].
    destruct (JsDate.validTime (File.lastModified file)) eqn:Hdate; [reflexivity |].
    rewrite (sealFile_invalid_date _ _ _ _ Hbuf Hdate) in H. discriminate.
  - rewrite (sealFile_unreadable _ _ _ _ Hbuf) in H. discriminate.
Qed.

(** The envelope [sealFile] returns is marked sealed and has its three
    seal fields, and the call leaves one entry in the log. *)
Lemma sealFile_returns_sealed (file : File.t)
    (geolocation : option GeolocationPosition) (w w' : World) (d : SealedData.t) :
  InputSealInterceptor.sealFile file geolocation w = (Ok d, w') ->
  SealedData.sealed d = true
  /\ InternalSealMiddleware.verifySealIntegrity d = true
  /\ logs w' = (logs w ++ [sealCreated file (SealedData.sha512 d) (nowText w)])%list.
Proof.
  intros H.
  destruct (sealFile_returns_inv _ _ _ _ _ H) as (buffer & Hbuf & Hdate).
  destruct (sealFile_success file geolocation w buffer Hbuf Hdate) as (c & Hc & E).
  rewrite E in H. apply run_inj in H. destruct H as [<- <-].
  split; [reflexivity |]. split; [| reflexivity].
  apply verifySealIntegrity_true. cbn.
  repeat split; [apply sha512_hex_nonempty | apply nowText_nonempty | exact Hc].
Qed.

(** C1 - Round trip: the [SealedData] that [sealFile] returns passes the
    internal gate immediately after sealing: [validateAndPass] returns it
    without throwing, and records one successful verification.  Such an
    envelope is returned for every file whose bytes are read and hashed
    and whose metadata can be extracted. *)
Theorem seal_then_verify_roundtrip (file : File.t)
    (geolocation : option GeolocationPosition) (fromModule toModule : string)
    (w : World) :
  (forall (d : SealedData.t) (w' : World),
      InputSealInterceptor.sealFile file geolocation w = (Ok d, w') ->
      InternalSealMiddleware.validateAndPass d fromModule toModule w'
      = (Ok d, logged (sealVerified (nowText w') (SealedData.sha512 d)) (tick w')))
  /\ (forall buffer,
        File.arrayBuffer file = Ok buffer ->
        JsDate.validTime (File.lastModified file) = true ->
        exists d w', InputSealInterceptor.sealFile file geolocation w = (Ok d, w')).
Proof.
  split.
  - intros d w' H.
    destruct (sealFile_returns_sealed _ _ _ _ _ H) as (Hs & Hv & _).
    now apply validateAndPass_valid.
  - intros buffer Hbuf Hdate.
    destruct (sealFile_success file geolocation w buffer Hbuf Hdate) as (c & _ & E).
    eexists. eexists. exact E.
Qed.

Lemma seal_then_verify_roundtrip_witness :
  InputSealInterceptor.sealFile evidence None world0 = (Ok sealedEvidence, world1)
  /\ InternalSealMiddleware.validateAndPass sealedEvidence "UploadModule"
       "ContradictionBrain" world1
     = (Ok sealedEvidence,
        logged (sealVerified (nowText world1) abcDigest) (tick world1)).
Proof.
  split; [exact sealFile_evidence |].
  exact (proj1 (seal_then_verify_roundtrip evidence None "UploadModule"
                  "ContradictionBrain" world0)
           sealedEvidence world1 sealFile_evidence).
Defined.

(* ====================================================================== *)
(** * Gate rejections *)
(* ====================================================================== *)

(** C5 - Internal gate rejection: a packet whose [sealed] flag is not
    [true] makes [validateAndPass] throw a [SealViolationError] and append
    exactly one [SEAL_REJECT] entry with result [FAILURE] to the audit
    log; the packet is not returned. *)
Theorem internal_gate_rejects_unsealed (data : SealedData.t)
    (fromModule toModule : string) (w : World) :
  SealedData.sealed data <> true ->
  exists message entry w',
    InternalSealMiddleware.validateAndPass data fromModule toModule w
    = (Err (SealViolationError message), w')
    /\ message = "Unsealed data rejected in transit from " ++ fromModule
                   ++ " to " ++ toModule
    /\ logs w' = (logs w ++ [entry])%list
    /\ AuditLogEntry.operation entry = SEAL_REJECT
    /\ AuditLogEntry.result entry = FAILURE
    /\ AuditLogEntry.reason entry = Some message
    /\ AuditLogEntry.timestamp entry = nowText w.
Proof.
  intros H. apply not_true_is_false in H.
  eexists. eexists. eexists. split.
  - apply validateAndPass_unsealed, H.
  - repeat split.
Qed.

Lemma internal_gate_rejects_unsealed_witness :
  exists message entry w',
    InternalSealMiddleware.validateAndPass unsealedPacket "UploadModule"
      "ContradictionBrain" world0
    = (Err (SealViolationError message), w')
    /\ message = "Unsealed data rejected in transit from UploadModule to ContradictionBrain"
    /\ logs w' = (logs world0 ++ [entry])%list
    /\ AuditLogEntry.operation entry = SEAL_REJECT
    /\ AuditLogEntry.result entry = FAILURE
    /\ AuditLogEntry.reason entry = Some message
    /\ AuditLogEntry.timestamp entry = "2025-01-22T13:13:16.364Z".
Proof.
  apply (internal_gate_rejects_unsealed unsealedPacket). simpl. discriminate.
Defined.

(** C6 - Output gate rejection: an envelope with [sealed = false]
    presented to [validateBeforeTransmission] is rejected with a
    [SealViolationError] and leaves exactly one [SEAL_REJECT] entry in the
    log; whatever transmission code follows the check is not run, so
    nothing is sent. *)
Theorem output_gate_rejects_unsealed {A : Type} (data : SealedData.t)
    (destination : string) (transmission : unit -> M A) (w : World) :
  SealedData.sealed data = false ->
  exists message entry w',
    OutputSealEnforcer.validateBeforeTransmission data destination w
    = (Err (SealViolationError message), w')
    /\ bind (OutputSealEnforcer.validateBeforeTransmission data destination)
         transmission w
       = (Err (SealViolationError message), w')
    /\ message = "Cannot send unsealed data to " ++ destination
                   ++ ". All external transmissions must be sealed."
    /\ logs w' = (logs w ++ [entry])%list
    /\ AuditLogEntry.operation entry = SEAL_REJECT
    /\ AuditLogEntry.result entry = FAILURE
    /\ network w' = network w.
Proof.
  intros H.
  pose proof (validateBeforeTransmission_unsealed data destination w H) as E.
  eexists. eexists. eexists. split; [exact E |]. split.
  - apply bind_err, E.
  - repeat split.
Qed.

Lemma output_gate_rejects_unsealed_witness :
  exists message entry w',
    OutputSealEnforcer.validateBeforeTransmission unsealedPacket "OpenAI API" world0
    = (Err (SealViolationError message), w')
    /\ bind (OutputSealEnforcer.validateBeforeTransmission unsealedPacket "OpenAI API")
         (fun _ => transmit "OpenAI API" "summary") world0
       = (Err (SealViolationError message), w')
    /\ message = "Cannot send unsealed data to OpenAI API. All external transmissions must be sealed."
    /\ logs w' = (logs world0 ++ [entry])%list
    /\ AuditLogEntry.operation entry = SEAL_REJECT
    /\ AuditLogEntry.result entry = FAILURE
    /\ network w' = network world0.
Proof.
  apply (output_gate_rejects_unsealed unsealedPacket). reflexivity.
Defined.

(** C9 - Gate idempotence and frame: a valid sealed envelope admitted
    twice by [validateAndPass] is returned unchanged both times, and the
    two calls append two [SEAL_VERIFY] [SUCCESS] entries, each with the
    envelope's digest and its own clock reading.  The function holds no
    assignment to [data]; the value it returns is its argument. *)
Theorem gate_admits_twice (data : SealedData.t) (fromModule toModule : string)
    (w : World) :
  SealedData.sealed data = true ->
  SealedData.sha512 data <> EmptyString ->
  SealedData.timestamp data <> EmptyString ->
  SealedData.chainOfCustody data <> EmptyString ->
  exists w1 w2 e1 e2,
    InternalSealMiddleware.validateAndPass data fromModule toModule w = (Ok data, w1)
    /\ InternalSealMiddleware.validateAndPass data fromModule toModule w1 = (Ok data, w2)
    /\ logs w2 = (logs w ++ [e1; e2])%list
    /\ e1 = sealVerified (nowText w) (SealedData.sha512 data)
    /\ e2 = sealVerified (nowText w1) (SealedData.sha512 data)
    /\ AuditLogEntry.operation e1 = SEAL_VERIFY /\ AuditLogEntry.result e1 = SUCCESS
    /\ AuditLogEntry.operation e2 = SEAL_VERIFY /\ AuditLogEntry.result e2 = SUCCESS
    /\ reads w1 = S (reads w).
Proof.
  intros Hs H1 H2 H3.
  assert (Hv : InternalSealMiddleware.verifySealIntegrity data = true)
    by (apply verifySealIntegrity_true; auto).
  eexists. eexists. eexists. eexists.
  split; [apply validateAndPass_valid; assumption |].
  split; [apply validateAndPass_valid; assumption |].
  split.
  - rewrite !logs_logged, !logs_tick, logs_logged, logs_tick.
    rewrite <- app_assoc. reflexivity.
  - repeat split.
Qed.

Lemma gate_admits_twice_witness :
  exists w1 w2,
    InternalSealMiddleware.validateAndPass sealedPacket "UploadModule"
      "ContradictionBrain" world0 = (Ok sealedPacket, w1)
    /\ InternalSealMiddleware.validateAndPass sealedPacket "UploadModule"
         "ContradictionBrain" w1 = (Ok sealedPacket, w2)
    /\ map AuditLogEntry.timestamp (logs w2)
       = [ "2025-01-22T13:13:16.364Z"; "2025-01-22T13:13:16.365Z" ].
Proof.
  destruct (gate_admits_twice sealedPacket "UploadModule" "ContradictionBrain" world0)
    as (w1 & w2 & e1 & e2 & R1 & R2 & L & E1 & E2 & _);
    [reflexivity | discriminate | discriminate | discriminate |].
  exists w1, w2. split; [exact R1 |]. split; [exact R2 |].
  rewrite L, E2, E1.
  assert (Hw1 : w1 = logged (sealVerified (nowText world0) "ab12") (tick world0)).
  { pose proof (validateAndPass_valid sealedPacket "UploadModule" "ContradictionBrain"
                  world0 eq_refl eq_refl) as R.
    rewrite R in R1. apply run_inj in R1. symmetry. apply R1. }
  rewrite Hw1. reflexivity.
Defined.

(* ====================================================================== *)
(** * Seal validation of plain data *)
(* ====================================================================== *)

Lemma absent_is_missing (props : list (string * JsVal)) (key : string) :
  lookup key props = JUndefined -> missing (JObj props) key.
Proof. unfold missing. cbn. now intros ->. Qed.



(** On the object of a typed envelope, [validateSeal] accepts what the
    internal gate accepts. *)
Lemma validateSeal_toValue (d : SealedData.t) :
  valid (InputSealInterceptor.validateSeal (SealedData.toValue d))
  = SealedData.sealed d && InternalSealMiddleware.verifySealIntegrity d.
Proof.
  unfold InputSealInterceptor.validateSeal, InternalSealMiddleware.verifySealIntegrity.
  cbn. destruct (SealedData.sealed d); cbn; [| reflexivity].
  destruct (String.eqb (SealedData.sha512 d) EmptyString
            || String.eqb (SealedData.timestamp d) EmptyString
            || String.eqb (SealedData.chainOfCustody d) EmptyString);
    reflexivity.
Qed.


Example validateSeal_examples :
  map (fun v => valid (InputSealInterceptor.validateSeal v))
    [ JNull; JUndefined; JStr "sealed"; JNum (Finite false 0 0); JArr [];
      JObj []; JObj [("sealed", JStr "true")];
      JObj [("sealed", JBool true); ("sha512", JStr "ab12")];
      JObj [("sealed", JBool true); ("sha512", JStr EmptyString);
            ("timestamp", JStr "t"); ("chainOfCustody", JStr "c")];
      SealedData.toValue unsealedPacket;
      SealedData.toValue sealedPacket;
      SealedData.toValue sealedEvidence ]
  = [ false; false; false; false; false; false; false; false; false; false;
      true; true ].
Proof. reflexivity. Qed.

(* ====================================================================== *)
(** * Consensus rule *)
(* ====================================================================== *)

Section ConsensusRule.
Import ConsensusAggregator.
Context {Value Confidence : Type}.
Variable agrees : Value -> Value -> bool.
Variable digestOf : @Finding Value Confidence -> string.

Lemma decide_accepted (agreement total : nat) :
  agreement = total -> 3 <= total -> decide agreement total = ACCEPTED.
Proof.
  intros -> H. unfold decide.
  rewrite Nat.eqb_refl. apply Nat.leb_le in H. now rewrite H.
Qed.

Lemma decide_flagged (agreement total : nat) :
  ~ (agreement = total /\ 3 <= total) ->
  total - 1 <= agreement -> 2 <= total ->
  decide agreement total = FLAGGED.
Proof.
  intros N H1 H2. unfold decide.
  destruct ((agreement =? total) && (3 <=? total))%nat eqn:E.
  - apply andb_true_iff in E. destruct E as [E1 E2].
    apply Nat.eqb_eq in E1. apply Nat.leb_le in E2. tauto.
  - apply Nat.leb_le in H1, H2. now rewrite H1, H2.
Qed.

Lemma decide_rejected (agreement total : nat) :
  agreement + 2 <= total \/ total <= 1 ->
  decide agreement total = REJECTED.
Proof.
  intros H. unfold decide.
  destruct ((agreement =? total) && (3 <=? total))%nat eqn:E.
  - apply andb_true_iff in E. destruct E as [E1 E2].
    apply Nat.eqb_eq in E1. apply Nat.leb_le in E2. lia.
  - destruct ((total - 1 <=? agreement) && (2 <=? total))%nat eqn:F;
      [| reflexivity].
    apply andb_true_iff in F. destruct F as [F1 F2].
    apply Nat.leb_le in F1, F2. lia.
Qed.

Lemma groupSize_le (v : Value) (findings : list (@Finding Value Confidence)) :
  groupSize Value agrees Confidence v findings <= List.length findings.
Proof. apply filter_length_le. Qed.

(** No group is larger than the list of findings. *)
Lemma largestGroup_le (findings : list (@Finding Value Confidence)) :
  largestGroup Value agrees Confidence findings <= List.length findings.
Proof.
  unfold largestGroup.
  generalize findings at 2 as l.
  induction l as [| f rest IH]; cbn [fold_right]; [lia |].
  apply Nat.max_lub; [apply groupSize_le | exact IH].
Qed.

(** C3 - Consensus rule: no findings, no verdict; for a non-empty list
    of findings [reconcile] returns a verdict for the claim, counting
    every finding, whose status follows from the two counts alone:
    [ACCEPTED] when all of at least three agree, [FLAGGED] when at most
    one dissents among at least two, [REJECTED] otherwise, so always
    for a single finding. *)
Theorem reconcile_consensus_rule (claim : string)
    (findings : list (@Finding Value Confidence)) :
  reconcile agrees digestOf claim [] = None
  /\ (findings <> [] ->
      exists v,
        reconcile agrees digestOf claim findings = Some v
        /\ verdict_claim_id v = claim
        /\ total_count v = List.length findings
        /\ agreement_count v = largestGroup Value agrees Confidence findings
        /\ agreement_count v <= total_count v
        /\ status v = decide (agreement_count v) (total_count v)
        /\ (agreement_count v = total_count v -> 3 <= total_count v ->
            status v = ACCEPTED)
        /\ (~ (agreement_count v = total_count v /\ 3 <= total_count v) ->
            total_count v - 1 <= agreement_count v -> 2 <= total_count v ->
            status v = FLAGGED)
        /\ (agreement_count v + 2 <= total_count v \/ total_count v <= 1 ->
            status v = REJECTED)
        /\ (List.length findings = 1 -> status v = REJECTED)).
Proof.
  split; [reflexivity |].
  intros Hne. destruct findings as [| f rest]; [contradiction |].
  eexists. split; [reflexivity |]. cbn [verdict_claim_id total_count
    agreement_count status].
  repeat split.
  - apply largestGroup_le.
  - apply decide_accepted.
  - apply decide_flagged.
  - apply decide_rejected.
  - intros H. apply decide_rejected. right. rewrite H. lia.
Qed.
End ConsensusRule.

(** The decision rule on the rows of the rule table of section 8.  The
    rule flags two analyzers that disagree (one agrees with itself, one
    dissents: [1 >= 2 - 1]); the table has that row as rejected. *)
Example consensus_table :
  map statusOf
    [ [ "authentic"; "authentic"; "authentic" ];
      [ "authentic"; "authentic"; "tampered" ];
      [ "authentic"; "tampered"; "forged" ];
      [ "authentic"; "authentic" ];
      [ "authentic" ];
      [] ]
  = [ Some ConsensusAggregator.ACCEPTED; Some ConsensusAggregator.FLAGGED;
      Some ConsensusAggregator.REJECTED; Some ConsensusAggregator.FLAGGED;
      Some ConsensusAggregator.REJECTED; None ].
Proof. reflexivity. Qed.

Example consensus_two_disagree :
  statusOf [ "authentic"; "tampered" ] = Some ConsensusAggregator.FLAGGED.
Proof. reflexivity. Qed.

Lemma reconcile_consensus_rule_witness :
  exists v,
    ConsensusAggregator.reconcile String.eqb
      (fun f => ConsensusAggregator.analyzer_id f) "c1"
      [ finding "a1" "authentic"; finding "a2" "authentic"; finding "a3" "tampered" ]
    = Some v
    /\ ConsensusAggregator.status v = ConsensusAggregator.FLAGGED
    /\ ConsensusAggregator.agreement_count v = 2
    /\ ConsensusAggregator.total_count v = 3.
Proof.
  destruct (reconcile_consensus_rule String.eqb
              (fun f => ConsensusAggregator.analyzer_id f) "c1"
              [ finding "a1" "authentic"; finding "a2" "authentic";
                finding "a3" "tampered" ]) as [_ H].
  destruct H as (v & Hv & _ & Ht & Ha & _ & Hs & _); [discriminate |].
  exists v. split; [exact Hv |].
  rewrite Hs, Ha, Ht. repeat split.
Defined.

(* ====================================================================== *)
(** * The audit log is a plain list *)
(* ====================================================================== *)

(** C4, as the specification has it, fails: an entry of the audit log has
    no field that depends on its predecessor.  Logging [first] and then
    [second], and logging [altered] and then [second], store the very
    same second entry, so altering the first entry leaves nothing in the
    second one to be invalidated. *)
Lemma ledger_entries_not_chained :
  let first := sealVerified "2025-01-22T13:13:16.364Z" "ab12" in
  let altered := sealVerified "2025-01-22T13:13:16.364Z" "ffff" in
  let second := transmissionRejected "2025-01-22T13:13:17.000Z" "OpenAI API" in
  first <> altered
  /\ logs (snd ((SealAuditLog.log first ;; SealAuditLog.log second) world0))
     = [first; second]
  /\ logs (snd ((SealAuditLog.log altered ;; SealAuditLog.log second) world0))
     = [altered; second].
Proof.
  cbv zeta. split; [discriminate |]. split; reflexivity.
Qed.

(** C4, amended - an entry of the audit log is made of six fields
    (operation, timestamp, item, digest of the subject, result, reason)
    and nothing else; [log] appends exactly one entry after the entries
    already there, which it keeps as they are and in their order; the
    entry stored is the caller's entry with its timestamp defaulted to
    the current time, the same whatever the history of the log holds;
    [getLogs] returns the entries in the order of their appending. *)
Theorem audit_log_appends_unlinked (entry : AuditLogEntry.t)
    (history : list AuditLogEntry.t) (w : World) :
  exists w',
    SealAuditLog.log entry (withLogs history w) = (Ok tt, w')
    /\ logs w' = (history ++ [AuditLogEntry.withTimestamp (stampFor entry w) entry])%list
    /\ SealAuditLog.getLogs w' = (Ok (logs w'), w')
    /\ (forall e : AuditLogEntry.t,
          e = {| AuditLogEntry.operation := AuditLogEntry.operation e;
                 AuditLogEntry.timestamp := AuditLogEntry.timestamp e;
                 AuditLogEntry.itemId := AuditLogEntry.itemId e;
                 AuditLogEntry.sha512 := AuditLogEntry.sha512 e;
                 AuditLogEntry.result := AuditLogEntry.result e;
                 AuditLogEntry.reason := AuditLogEntry.reason e |}).
Proof.
  destruct (log_appends entry (withLogs history w)) as (w' & R & L & _).
  exists w'. split; [exact R |]. split; [exact L |]. split; [reflexivity |].
  intros e. destruct e; reflexivity.
Qed.

(* ====================================================================== *)
(** * Verification does not look at the payload *)
(* ====================================================================== *)

Example sealForOutput_report :
  OutputSealEnforcer.sealForOutput (report "A") "OpenAI API" world0
  = (Ok sealedBrief,
     logged (outputSealed "2025-01-22T13:13:16.364Z" reportADigest "OpenAI API")
       (tick world0)).
Proof. vm_compute. reflexivity. Qed.

(** The integrity check reads three fields of the envelope and nothing
    of the payload. *)
Lemma verifySealIntegrity_ignores_content (v : JsVal) (d : SealedData.t) :
  InternalSealMiddleware.verifySealIntegrity (withContent v d)
  = InternalSealMiddleware.verifySealIntegrity d.
Proof. reflexivity. Qed.

(** C2, on the code: a payload changed after sealing still verifies.
    The file sealed as [sealedEvidence] held [abc]; with its bytes
    changed to [abd] the digest no longer matches, and the internal gate
    admits the envelope all the same.  Likewise the brief sealed over
    [report "A"] passes both gates once its content is [report "B"]. *)
Lemma tampered_payload_still_verifies :
  hexOfBytes (WebCrypto.digest WebCrypto.SHA512 (TextEncoder_encode "abd"))
  <> SealedData.sha512 sealedEvidence
  /\ InternalSealMiddleware.verifySealIntegrity sealedEvidence = true
  /\ fst (InternalSealMiddleware.validateAndPass sealedEvidence "UploadModule"
            "ContradictionBrain" world1) = Ok sealedEvidence
  /\ contentDigest (report "B")
     <> Ok (SealedData.sha512 (withContent (report "B") sealedBrief))
  /\ fst (InternalSealMiddleware.validateAndPass (withContent (report "B") sealedBrief)
            "SynthesisBrain" "OutputModule" world1)
     = Ok (withContent (report "B") sealedBrief)
  /\ fst (OutputSealEnforcer.validateBeforeTransmission
            (withContent (report "B") sealedBrief) "OpenAI API" world1) = Ok tt.
Proof.
  split; [vm_compute; discriminate |].
  split; [reflexivity |].
  split; [now rewrite validateAndPass_valid |].
  split; [vm_compute; discriminate |].
  split; [now rewrite validateAndPass_valid |].
  now rewrite validateBeforeTransmission_sealed.
Qed.

(* ====================================================================== *)
(** * What the output gate checks *)
(* ====================================================================== *)

(** C7 - raw evidence crosses the output gate, against the words of the
    gate itself ([sealForOutput]: never sends raw evidence, only sealed
    briefs reach cloud AI).  The text of the evidence file, given to
    [sealForOutput], comes back unchanged as the content of an envelope
    that passes the transmission check; and the envelope of the file,
    straight from [sealFile], passes the check too, although the audit
    log shows that the internal gate has not seen it (no [SEAL_VERIFY]
    entry before the check). *)
Lemma output_gate_passes_raw_evidence :
  InputSealInterceptor.sealFile evidence None world0 = (Ok sealedEvidence, world1)
  /\ (forall e, In e (logs world1) -> AuditLogEntry.operation e <> SEAL_VERIFY)
  /\ fst (OutputSealEnforcer.validateBeforeTransmission sealedEvidence "OpenAI API"
            world1) = Ok tt
  /\ exists d w,
       OutputSealEnforcer.sealForOutput (JStr "abc") "OpenAI API" world1 = (Ok d, w)
       /\ SealedData.content d = Some (JStr "abc")
       /\ fst (OutputSealEnforcer.validateBeforeTransmission d "OpenAI API" w) = Ok tt.
Proof.
  split; [exact sealFile_evidence |]. split; [| split].
  - intros e [<- | []]. discriminate.
  - now rewrite validateBeforeTransmission_sealed.
  - destruct (sealForOutput_success (JStr "abc") "OpenAI API" world1 _ eq_refl)
      as (c & _ & E).
    eexists. eexists. split; [exact E |]. split; [reflexivity |].
    now rewrite validateBeforeTransmission_sealed.
Qed.

(** Why it crosses: the transmission check of the output gate looks at
    the seal flag only.  It accepts an envelope exactly when [sealed] is
    [true], whatever its content and whether or not the internal gate
    admitted it, and then logs one [SEAL_VERIFY] success; otherwise it
    throws a [SealViolationError].  Every envelope [sealForOutput]
    returns is marked sealed and passes the check. *)
Theorem output_gate_checks_seal_flag (data : SealedData.t) (destination : string)
    (w : World) :
  (fst (OutputSealEnforcer.validateBeforeTransmission data destination w) = Ok tt
   <-> SealedData.sealed data = true)
  /\ (SealedData.sealed data = true ->
      OutputSealEnforcer.validateBeforeTransmission data destination w
      = (Ok tt,
         logged (transmissionValidated (nowText w) (SealedData.sha512 data)
                   destination) (tick w)))
  /\ (SealedData.sealed data = false ->
      exists message w',
        OutputSealEnforcer.validateBeforeTransmission data destination w
        = (Err (SealViolationError message), w'))
  /\ (forall (payload : JsVal) (w0 w1 : World),
        OutputSealEnforcer.sealForOutput payload destination w0 = (Ok data, w1) ->
        SealedData.sealed data = true
        /\ fst (OutputSealEnforcer.validateBeforeTransmission data destination w1)
           = Ok tt).
Proof.
  assert (Hfl : SealedData.sealed data = false ->
                exists message w',
                  OutputSealEnforcer.validateBeforeTransmission data destination w
                  = (Err (SealViolationError message), w')).
  { intros H. eexists. eexists. apply validateBeforeTransmission_unsealed, H. }
  split; [| split; [| split]].
  - split.
    + intros H. destruct (SealedData.sealed data) eqn:Hs; [reflexivity |].
      destruct (Hfl eq_refl) as (m & w' & E). rewrite E in H. discriminate.
    + intros H. now rewrite validateBeforeTransmission_sealed.
  - apply validateBeforeTransmission_sealed.
  - exact Hfl.
  - intros payload w0 w1 H.
    assert (Hs : SealedData.sealed data = true).
    { destruct (JSON.stringify payload) as [o | e] eqn:Hj.
      - destruct (sealForOutput_success payload destination w0 o Hj) as (c & _ & E).
        rewrite E in H. apply run_inj in H. destruct H as [<- _]. reflexivity.
      - rewrite (sealForOutput_fail _ _ _ _ Hj) in H. discriminate. }
    split; [exact Hs |]. now rewrite validateBeforeTransmission_sealed.
Qed.

Lemma output_gate_checks_seal_flag_witness :
  OutputSealEnforcer.validateBeforeTransmission sealedBrief "OpenAI API" world1
  = (Ok tt,
     logged (transmissionValidated (nowText world1) reportADigest "OpenAI API")
       (tick world1))
  /\ exists message w',
       OutputSealEnforcer.validateBeforeTransmission unsealedPacket "OpenAI API" world1
       = (Err (SealViolationError message), w').
Proof.
  split.
  - apply (output_gate_checks_seal_flag sealedBrief "OpenAI API" world1). reflexivity.
  - apply (output_gate_checks_seal_flag unsealedPacket "OpenAI API" world1). reflexivity.
Defined.

(* ====================================================================== *)
(** * Outcome of sealing a file *)
(* ====================================================================== *)

(** C8, as the specification has it, fails: the bytes of
    [misdatedEvidence] are read and hashed, yet [sealFile] throws, because
    [extractMetadata] formats the modification date and that date is
    invalid; the log receives a [SEAL_CREATE] failure. *)
Lemma sealFile_fails_after_hashing :
  InputSealInterceptor.generateSHA512 misdatedEvidence world0 = (Ok abcDigest, world0)
  /\ InputSealInterceptor.sealFile misdatedEvidence None world0
     = (Err (SealViolationError "Failed to seal file: Invalid time value"),
        logged (sealFailed misdatedEvidence "2025-01-22T13:13:16.365Z"
                  "Invalid time value") (tick (tick world0))).
Proof.
  split; vm_compute; reflexivity.
Qed.

(** C8, amended - for every file whose bytes can be read and whose
    modification time is a valid date, [sealFile] returns a [SealedData]
    with [sealed = true], the digest of the bytes, a timestamp and a
    custody signature, all non-empty, and [gps] taken from the
    geolocation or left undefined without one; it appends exactly one
    [SEAL_CREATE] success entry.  When the bytes cannot be read, or the
    modification time is not a valid date, it appends exactly one
    [SEAL_CREATE] failure entry with the reason and throws a
    [SealViolationError]. *)
Theorem sealFile_outcome (file : File.t) (geolocation : option GeolocationPosition)
    (w : World) :
  (forall buffer,
      File.arrayBuffer file = Ok buffer ->
      JsDate.validTime (File.lastModified file) = true ->
      exists d w',
        InputSealInterceptor.sealFile file geolocation w = (Ok d, w')
        /\ SealedData.sealed d = true
        /\ SealedData.sha512 d = hexOfBytes (WebCrypto.digest WebCrypto.SHA512 buffer)
        /\ SealedData.sha512 d <> EmptyString
        /\ SealedData.timestamp d = nowText w
        /\ SealedData.timestamp d <> EmptyString
        /\ SealedData.chainOfCustody d <> EmptyString
        /\ SealedData.gps d = gpsOf geolocation
        /\ (geolocation = None -> SealedData.gps d = None)
        /\ logs w' = (logs w ++ [sealCreated file (SealedData.sha512 d)
                                   (SealedData.timestamp d)])%list)
  /\ (forall e,
        File.arrayBuffer file = Err e ->
        exists w',
          InputSealInterceptor.sealFile file geolocation w
          = (Err (SealViolationError ("Failed to seal file: " ++ errMessage e)), w')
          /\ logs w' = (logs w ++ [sealFailed file (nowText w) (errMessage e)])%list)
  /\ (forall buffer,
        File.arrayBuffer file = Ok buffer ->
        JsDate.validTime (File.lastModified file) = false ->
        exists w',
          InputSealInterceptor.sealFile file geolocation w
          = (Err (SealViolationError "Failed to seal file: Invalid time value"), w')
          /\ logs w' = (logs w ++ [sealFailed file (nowText (tick w))
                                     "Invalid time value"])%list).
Proof.
  split; [| split].
  - intros buffer Hbuf Hdate.
    destruct (sealFile_success file geolocation w buffer Hbuf Hdate) as (c & Hc & E).
    eexists. eexists. split; [exact E |]. cbn.
    repeat split; auto using sha512_hex_nonempty, nowText_nonempty.
    now intros ->.
  - intros e Hbuf. eexists. split; [apply sealFile_unreadable, Hbuf | reflexivity].
  - intros buffer Hbuf Hdate. eexists.
    split; [apply (sealFile_invalid_date _ _ _ _ Hbuf Hdate) | reflexivity].
Qed.

Lemma sealFile_outcome_witness :
  exists d w',
    InputSealInterceptor.sealFile evidence None world0 = (Ok d, w')
    /\ SealedData.sealed d = true
    /\ SealedData.sha512 d = abcDigest
    /\ SealedData.gps d = None
    /\ logs w' = [sealCreated evidence abcDigest "2025-01-22T13:13:16.364Z"].
Proof.
  destruct (sealFile_outcome evidence None world0) as [H _].
  destruct (H (TextEncoder_encode "abc") eq_refl eq_refl)
    as (d & w' & E & Hs & Hd & _ & Ht & _ & _ & _ & Hg & L).
  exists d, w'. split; [exact E |]. split; [exact Hs |].
  split; [rewrite Hd; exact sha512_abc |].
  split; [apply Hg; reflexivity |].
  rewrite L, Ht, Hd, sha512_abc. reflexivity.
Defined.

(* ====================================================================== *)
(** * Shape of the digests and signatures *)
(* ====================================================================== *)

Lemma hex2_shape (b : byte) :
  exists c1 c2,
    hex2 b = String c1 (String c2 EmptyString)
    /\ isLowerHex c1 = true /\ isLowerHex c2 = true.
Proof.
  eexists. eexists. split; [reflexivity |]. destruct b; split; reflexivity.
Qed.

Lemma hexOfBytes_length (bs : list byte) :
  String.length (hexOfBytes bs) = (2 * List.length bs)%nat.
Proof.
  induction bs as [| b rest IH]; [reflexivity |].
  destruct (hex2_shape b) as (c1 & c2 & E & _).
  cbn [hexOfBytes List.length]. rewrite E. cbn. rewrite IH. lia.
Qed.

Lemma hexOfBytes_lower (bs : list byte) :
  allChars isLowerHex (hexOfBytes bs) = true.
Proof.
  induction bs as [| b rest IH]; [reflexivity |].
  destruct (hex2_shape b) as (c1 & c2 & E & H1 & H2).
  cbn [hexOfBytes]. rewrite E. cbn. now rewrite H1, H2, IH.
Qed.

Lemma upperAscii_hex (c : ascii) :
  isLowerHex c = true -> isUpperHex (upperAscii c) = true.
Proof.
  destruct c as [[] [] [] [] [] [] [] []]; cbn; intros H;
    try reflexivity; discriminate H.
Qed.

Lemma toUpperCase_length (s : string) :
  String.length (toUpperCase s) = String.length s.
Proof.
  induction s as [| c rest IH]; cbn; [reflexivity | now rewrite IH].
Qed.

Lemma toUpperCase_hex (s : string) :
  allChars isLowerHex s = true -> allChars isUpperHex (toUpperCase s) = true.
Proof.
  induction s as [| c rest IH]; cbn [allChars toUpperCase]; [reflexivity |].
  intros H. apply andb_true_iff in H. destruct H as [Hc Hr].
  now rewrite (upperAscii_hex c Hc), (IH Hr).
Qed.

Lemma substring_prefix_length (n : nat) (s : string) :
  String.length (substring 0 n s) = Nat.min n (String.length s).
Proof.
  revert s. induction n as [| k IH]; intros [| c rest]; cbn; try reflexivity.
  now rewrite IH.
Qed.

Lemma substring_prefix_allChars (p : ascii -> bool) (n : nat) (s : string) :
  allChars p s = true -> allChars p (substring 0 n s) = true.
Proof.
  revert s. induction n as [| k IH]; intros [| c rest]; cbn; try reflexivity.
  intros H. apply andb_true_iff in H. destruct H as [Hc Hr].
  now rewrite Hc, (IH rest Hr).
Qed.

(** A SHA-512 digest prints as 128 and a SHA-256 digest as 64 characters
    of [0-9a-f]. *)
Lemma sha512_hex_shape (data : list byte) :
  let h := hexOfBytes (WebCrypto.digest WebCrypto.SHA512 data) in
  String.length h = 128%nat /\ allChars isLowerHex h = true.
Proof.
  cbv zeta. split; [| apply hexOfBytes_lower].
  now rewrite hexOfBytes_length, sha512_length.
Qed.

Lemma sha256_hex_shape (data : list byte) :
  let h := hexOfBytes (WebCrypto.digest WebCrypto.SHA256 data) in
  String.length h = 64%nat /\ allChars isLowerHex h = true.
Proof.
  cbv zeta. split; [| apply hexOfBytes_lower].
  now rewrite hexOfBytes_length, sha256_length.
Qed.

(** The first sixteen characters of an upper-cased SHA-256 digest. *)
Lemma signature_shape (data : list byte) :
  let c := substring 0 16 (toUpperCase (hexOfBytes
             (WebCrypto.digest WebCrypto.SHA256 data))) in
  String.length c = 16%nat /\ allChars isUpperHex c = true.
Proof.
  cbv zeta. destruct (sha256_hex_shape data) as [L H]. split.
  - rewrite substring_prefix_length, toUpperCase_length, L. reflexivity.
  - apply substring_prefix_allChars, toUpperCase_hex, H.
Qed.

(* ====================================================================== *)
(** * Seals can be recomputed from the envelope *)
(* ====================================================================== *)

(** [generateChainOfCustody] is a function of its three arguments: it
    reads nothing of the world and leaves it as it is. *)
Lemma generateChainOfCustody_pure (sha512 timestamp : string)
    (gps : option GeolocationCoordinates) (w : World) :
  InputSealInterceptor.generateChainOfCustody sha512 timestamp gps w
  = (Ok (custodySignature sha512 timestamp gps), w).
Proof.
  unfold InputSealInterceptor.generateChainOfCustody, custodySignature.
  destruct (stringify_custody_ok sha512 timestamp gps) as [s E].
  run_bind w (TextEncoder_encode s) ltac:(apply (encodeJSON_run _ (Some s)); exact E).
  rewrite E. reflexivity.
Qed.

(** The envelope [sealFile] returns, field by field. *)
Lemma sealFile_returns_fields (file : File.t)
    (geolocation : option GeolocationPosition) (w w' : World) (d : SealedData.t) :
  InputSealInterceptor.sealFile file geolocation w = (Ok d, w') ->
  exists buffer,
    File.arrayBuffer file = Ok buffer
    /\ d = {| SealedData.sha512 := hexOfBytes (WebCrypto.digest WebCrypto.SHA512 buffer);
              SealedData.timestamp := nowText w;
              SealedData.gps := gpsOf geolocation;
              SealedData.sealed := true;
              SealedData.chainOfCustody :=
                custodySignature (hexOfBytes (WebCrypto.digest WebCrypto.SHA512 buffer))
                  (nowText w) (gpsOf geolocation);
              SealedData.metadata := Some (fileMetadata file);
              SealedData.authenticityScore := Some (numberOfN 95);
              SealedData.tamperFlags := Some [];
              SealedData.content := None |}.
Proof.
  intros H.
  destruct (sealFile_returns_inv _ _ _ _ _ H) as (buffer & Hbuf & Hdate).
  exists buffer. split; [exact Hbuf |].
  assert (E : InputSealInterceptor.sealFile file geolocation w
              = (Ok {| SealedData.sha512 := hexOfBytes (WebCrypto.digest WebCrypto.SHA512 buffer);
                       SealedData.timestamp := nowText w;
                       SealedData.gps := gpsOf geolocation;
                       SealedData.sealed := true;
                       SealedData.chainOfCustody :=
                         custodySignature
                           (hexOfBytes (WebCrypto.digest WebCrypto.SHA512 buffer))
                           (nowText w) (gpsOf geolocation);
                       SealedData.metadata := Some (fileMetadata file);
                       SealedData.authenticityScore := Some (numberOfN 95);
                       SealedData.tamperFlags := Some [];
                       SealedData.content := None |},
                 logged (sealCreated file
                           (hexOfBytes (WebCrypto.digest WebCrypto.SHA512 buffer))
                           (nowText w)) (tick w))).
  { unfold InputSealInterceptor.sealFile. apply tryCatch_ok.
    run_bind w (hexOfBytes (WebCrypto.digest WebCrypto.SHA512 buffer))
      ltac:(apply generateSHA512_run; exact Hbuf).
    run_bind (tick w) (nowText w) ltac:(apply now_run).
    run_bind (tick w) (fileMetadata file) ltac:(apply extractMetadata_run; exact Hdate).
    run_bind (tick w) (numberOfN 95) ltac:(reflexivity).
    run_bind (tick w) (@nil string) ltac:(reflexivity).
    run_bind (tick w)
      (custodySignature (hexOfBytes (WebCrypto.digest WebCrypto.SHA512 buffer))
         (nowText w) (gpsOf geolocation))
      ltac:(apply generateChainOfCustody_pure).
    run_bind (logged (sealCreated file
                        (hexOfBytes (WebCrypto.digest WebCrypto.SHA512 buffer))
                        (nowText w)) (tick w)) tt
      ltac:(apply log_run, nowText_nonempty).
    reflexivity. }
  rewrite E in H. apply run_inj in H. symmetry. apply H.
Qed.

(** X1 - The sha512 of an envelope returned by [sealFile] is 128
    characters of [0-9a-f] and its chainOfCustody is 16 characters of
    [0-9A-F]. *)
Theorem sealFile_digest_shape (file : File.t)
    (geolocation : option GeolocationPosition) (w w' : World) (d : SealedData.t) :
  InputSealInterceptor.sealFile file geolocation w = (Ok d, w') ->
  String.length (SealedData.sha512 d) = 128%nat
  /\ allChars isLowerHex (SealedData.sha512 d) = true
  /\ String.length (SealedData.chainOfCustody d) = 16%nat
  /\ allChars isUpperHex (SealedData.chainOfCustody d) = true.
Proof.
  intros H. destruct (sealFile_returns_fields _ _ _ _ _ H) as (buffer & _ & ->).
  cbn [SealedData.sha512 SealedData.chainOfCustody].
  destruct (sha512_hex_shape buffer) as [L1 H1].
  split; [exact L1 |]. split; [exact H1 |]. apply signature_shape.
Qed.

Lemma sealFile_digest_shape_witness :
  String.length (SealedData.sha512 sealedEvidence) = 128%nat
  /\ allChars isLowerHex (SealedData.sha512 sealedEvidence) = true
  /\ String.length (SealedData.chainOfCustody sealedEvidence) = 16%nat
  /\ allChars isUpperHex (SealedData.chainOfCustody sealedEvidence) = true.
Proof.
  exact (sealFile_digest_shape evidence None world0 world1 sealedEvidence
           sealFile_evidence).
Defined.

(** X2 - The envelope [sealFile] returns binds its fields: its sha512 is
    the digest of the bytes read from the file, and running
    [generateChainOfCustody] again on its sha512, timestamp and gps, in
    any world, gives its chainOfCustody.  It holds no content. *)
Theorem sealFile_seal_recomputable (file : File.t)
    (geolocation : option GeolocationPosition) (w w' : World) (d : SealedData.t) :
  InputSealInterceptor.sealFile file geolocation w = (Ok d, w') ->
  (forall later : World,
      InputSealInterceptor.generateChainOfCustody (SealedData.sha512 d)
        (SealedData.timestamp d) (SealedData.gps d) later
      = (Ok (SealedData.chainOfCustody d), later))
  /\ InputSealInterceptor.generateSHA512 file w' = (Ok (SealedData.sha512 d), w')
  /\ SealedData.content d = None.
Proof.
  intros H. destruct (sealFile_returns_fields _ _ _ _ _ H) as (buffer & Hbuf & ->).
  cbn [SealedData.sha512 SealedData.timestamp SealedData.gps
       SealedData.chainOfCustody SealedData.content].
  split; [intros later; apply generateChainOfCustody_pure |].
  split; [apply generateSHA512_run, Hbuf | reflexivity].
Qed.

Lemma sealFile_seal_recomputable_witness :
  InputSealInterceptor.generateChainOfCustody abcDigest "2025-01-22T13:13:16.364Z"
    None world0
  = (Ok "EBC666758C052C62", world0).
Proof.
  exact (proj1 (sealFile_seal_recomputable evidence None world0 world1
                  sealedEvidence sealFile_evidence) world0).
Defined.

(* ====================================================================== *)
(** * Sealing for output *)
(* ====================================================================== *)

(** [JSON.stringify] throws exactly on the values that hold a BigInt, at
    any depth, and then always the same [TypeError]. *)
Lemma stringify_outcome (v : JsVal) :
  (holdsBigInt v = false -> exists o, JSON.stringify v = Ok o)
  /\ (holdsBigInt v = true -> JSON.stringify v = Err bigIntError).
Proof.
  revert v. fix IH 1. intros v.
  destruct v as [| | b | x | z | s | d | n | items | props];
    try (split; [intros _; eexists; reflexivity | discriminate]).
  - split; [discriminate | reflexivity].
  - cbn [holdsBigInt JSON.stringify].
    match goal with
    | |- context [match ?f items with _ => _ end] => set (elements := f)
    end.
    match goal with
    | |- (?g items = false -> _) /\ _ => set (any := g)
    end.
    assert (H : (any items = false -> exists ts, elements items = Ok ts)
                /\ (any items = true -> elements items = Err bigIntError)).
    { induction items as [| x rest IHl];
        [split; [eexists; reflexivity | discriminate] |].
      destruct (IH x) as [Hx1 Hx2]. destruct IHl as [Hr1 Hr2].
      cbn. fold any. fold elements.
      destruct (holdsBigInt x) eqn:Hb; cbn [orb].
      - split; [discriminate |]. intros _. now rewrite (Hx2 eq_refl).
      - destruct (Hx1 eq_refl) as [o ->]. split.
        + intros Hr. destruct (Hr1 Hr) as [ts ->]. eexists; reflexivity.
        + intros Hr. now rewrite (Hr2 Hr). }
    destruct H as [H1 H2]. split.
    + intros Hf. destruct (H1 Hf) as [ts ->]. eexists; reflexivity.
    + intros Ht. now rewrite (H2 Ht).
  - cbn [holdsBigInt JSON.stringify].
    match goal with
    | |- context [match ?f props with _ => _ end] => set (members := f)
    end.
    match goal with
    | |- (?g props = false -> _) /\ _ => set (any := g)
    end.
    assert (H : (any props = false -> exists ts, members props = Ok ts)
                /\ (any props = true -> members props = Err bigIntError)).
    { induction props as [| [k x] rest IHl];
        [split; [eexists; reflexivity | discriminate] |].
      destruct (IH x) as [Hx1 Hx2]. destruct IHl as [Hr1 Hr2].
      cbn. fold any. fold members.
      destruct (holdsBigInt x) eqn:Hb; cbn [orb].
      - split; [discriminate |]. intros _. now rewrite (Hx2 eq_refl).
      - destruct (Hx1 eq_refl) as [o ->]. split.
        + intros Hr. destruct (Hr1 Hr) as [ts ->]. eexists; reflexivity.
        + intros Hr. now rewrite (Hr2 Hr). }
    destruct H as [H1 H2]. split.
    + intros Hf. destruct (H1 Hf) as [ts ->]. eexists; reflexivity.
    + intros Ht. now rewrite (H2 Ht).
Qed.

Lemma sealForOutput_run (data : JsVal) (destination : string) (w : World)
    (o : option string) :
  JSON.stringify data = Ok o ->
  OutputSealEnforcer.sealForOutput data destination w
  = (Ok (outputEnvelope data o (nowText w) destination),
     logged (outputSealed (nowText w)
               (SealedData.sha512 (outputEnvelope data o (nowText w) destination))
               destination) (tick w)).
Proof.
  intros Hs. unfold outputEnvelope. cbv zeta. cbn [SealedData.sha512].
  set (sha := hexOfBytes (WebCrypto.digest WebCrypto.SHA512
                (TextEncoder_encode (match o with Some s => s | None => EmptyString end)))).
  destruct (stringify_output_custody_ok sha (nowText w) destination) as [s Hc].
  unfold OutputSealEnforcer.sealForOutput. apply tryCatch_ok.
  run_bind (tick w) (nowText w) ltac:(apply now_run).
  run_bind (tick w)
    (TextEncoder_encode (match o with Some s => s | None => EmptyString end))
    ltac:(apply encodeJSON_run; exact Hs).
  fold sha.
  run_bind (tick w) (TextEncoder_encode s)
    ltac:(apply (encodeJSON_run _ (Some s)); exact Hc).
  run_bind (logged (outputSealed (nowText w) sha destination) (tick w)) tt
    ltac:(apply log_run, nowText_nonempty).
  unfold outputCustodySignature. rewrite Hc. reflexivity.
Qed.



(** X4 - The seal of an output depends on the data only through their
    JSON text: two payloads with the same text, sealed for the same
    destination in the same world, get the same sha512, the same
    chainOfCustody and the same audit entry, whatever their contents. *)
Theorem sealForOutput_same_text (a b : JsVal) (destination : string)
    (w wa wb : World) (da db : SealedData.t) :
  JSON.stringify a = JSON.stringify b ->
  OutputSealEnforcer.sealForOutput a destination w = (Ok da, wa) ->
  OutputSealEnforcer.sealForOutput b destination w = (Ok db, wb) ->
  SealedData.sha512 da = SealedData.sha512 db
  /\ SealedData.chainOfCustody da = SealedData.chainOfCustody db
  /\ wa = wb
  /\ SealedData.content da = Some a
  /\ SealedData.content db = Some b.
Proof.
  intros Hj Ha Hb.
  destruct (JSON.stringify a) as [o | e] eqn:Hsa.
  - rewrite (sealForOutput_run a destination w o Hsa) in Ha.
    rewrite (sealForOutput_run b destination w o (eq_sym Hj)) in Hb.
    apply run_inj in Ha. apply run_inj in Hb.
    destruct Ha as [<- <-]. destruct Hb as [<- <-].
    repeat split.
  - rewrite (sealForOutput_fail a destination w e Hsa) in Ha. discriminate.
Qed.

Lemma sealForOutput_same_text_witness :
  exists da db w',
    OutputSealEnforcer.sealForOutput (JObj [ ("score", JNum NaN) ]) "OpenAI API" world0
    = (Ok da, w')
    /\ OutputSealEnforcer.sealForOutput (JObj [ ("score", JNull) ]) "OpenAI API" world0
       = (Ok db, w')
    /\ SealedData.sha512 da = SealedData.sha512 db
    /\ SealedData.content da <> SealedData.content db.
Proof.
  pose proof (sealForOutput_run (JObj [ ("score", JNum NaN) ]) "OpenAI API" world0
                _ eq_refl) as Ra.
  pose proof (sealForOutput_run (JObj [ ("score", JNull) ]) "OpenAI API" world0
                _ eq_refl) as Rb.
  destruct (sealForOutput_same_text (JObj [ ("score", JNum NaN) ])
              (JObj [ ("score", JNull) ]) _ _ _ _ _ _ eq_refl Ra Rb)
    as (Hs & _ & Hw & Ca & Cb).
  eexists. eexists. eexists.
  split; [exact Ra |]. split; [rewrite Hw; exact Rb |].
  split; [exact Hs |]. rewrite Ca, Cb. discriminate.
Defined.

(* ====================================================================== *)
(** * Rejections and the two later gates *)
(* ====================================================================== *)





(** X6 - A packet marked sealed that lacks its sha512, timestamp or
    chainOfCustody is refused by the internal gate with a
    [SealIntegrityError]; one [SEAL_VERIFY] failure is logged with the
    packet's sha512 and the two module names; the packet is not
    returned. *)
Theorem internal_gate_rejects_incomplete (data : SealedData.t)
    (fromModule toModule : string) (w : World) :
  SealedData.sealed data = true ->
  SealedData.sha512 data = EmptyString
  \/ SealedData.timestamp data = EmptyString
  \/ SealedData.chainOfCustody data = EmptyString ->
  exists entry w',
    InternalSealMiddleware.validateAndPass data fromModule toModule w
    = (Err (SealIntegrityError
              "Seal integrity check failed - possible tampering detected"), w')
    /\ logs w' = (logs w ++ [entry])%list
    /\ AuditLogEntry.operation entry = SEAL_VERIFY
    /\ AuditLogEntry.result entry = FAILURE
    /\ AuditLogEntry.sha512 entry = Some (SealedData.sha512 data)
    /\ AuditLogEntry.reason entry
       = Some ("Seal integrity check failed from " ++ fromModule ++ " to " ++ toModule).
Proof.
  intros Hs Hm.
  assert (Hv : InternalSealMiddleware.verifySealIntegrity data = false).
  { destruct (InternalSealMiddleware.verifySealIntegrity data) eqn:E; [| reflexivity].
    apply verifySealIntegrity_true in E. destruct E as (E1 & E2 & E3).
    destruct Hm as [H | [H | H]]; contradiction. }
  eexists. eexists. split; [apply validateAndPass_broken; assumption |].
  repeat split.
Qed.

Lemma internal_gate_rejects_incomplete_witness :
  fst (InternalSealMiddleware.validateAndPass unsignedPacket "UploadModule"
         "ContradictionBrain" world0)
  = Err (SealIntegrityError
           "Seal integrity check failed - possible tampering detected").
Proof.
  destruct (internal_gate_rejects_incomplete unsignedPacket "UploadModule"
              "ContradictionBrain" world0 eq_refl) as (e & w' & R & _).
  - right; right; reflexivity.
  - now rewrite R.
Defined.

(** X7 - The output gate is weaker than the internal gate: what
    [validateAndPass] returns, [validateBeforeTransmission] accepts; and
    a packet marked sealed that lacks one of its seal fields is accepted
    for transmission although the internal gate refuses it. *)
Theorem output_gate_weaker (data : SealedData.t) (fromModule toModule : string)
    (destination : string) (w : World) :
  (forall out w1,
      InternalSealMiddleware.validateAndPass data fromModule toModule w = (Ok out, w1) ->
      out = data
      /\ fst (OutputSealEnforcer.validateBeforeTransmission out destination w1) = Ok tt)
  /\ (SealedData.sealed data = true ->
      InternalSealMiddleware.verifySealIntegrity data = false ->
      fst (OutputSealEnforcer.validateBeforeTransmission data destination w) = Ok tt
      /\ fst (InternalSealMiddleware.validateAndPass data fromModule toModule w)
         = Err (SealIntegrityError
                  "Seal integrity check failed - possible tampering detected")).
Proof.
  split.
  - intros out w1 H.
    destruct (validateAndPass_outcome data fromModule toModule w)
      as (r & e & R & Hiff).
    rewrite R in H.
    assert (Hr : r = Ok out) by congruence.
    destruct (SealedData.sealed data) eqn:Hs.
    + destruct (InternalSealMiddleware.verifySealIntegrity data) eqn:Hv.
      * rewrite (validateAndPass_valid data fromModule toModule w Hs Hv) in R.
        assert (out = data) by congruence. subst out.
        split; [reflexivity |]. now rewrite validateBeforeTransmission_sealed.
      * rewrite (validateAndPass_broken data fromModule toModule w Hs Hv) in R.
        congruence.
    + rewrite (validateAndPass_unsealed data fromModule toModule w Hs) in R.
      congruence.
  - intros Hs Hv. split.
    + now rewrite validateBeforeTransmission_sealed.
    + now rewrite validateAndPass_broken.
Qed.

Lemma output_gate_weaker_witness :
  fst (OutputSealEnforcer.validateBeforeTransmission unsignedPacket "OpenAI API" world0)
  = Ok tt
  /\ fst (InternalSealMiddleware.validateAndPass unsignedPacket "SynthesisBrain"
            "OutputModule" world0)
     = Err (SealIntegrityError
              "Seal integrity check failed - possible tampering detected").
Proof.
  exact (proj2 (output_gate_weaker unsignedPacket "SynthesisBrain" "OutputModule"
                  "OpenAI API" world0) eq_refl eq_refl).
Defined.

(** X8 - On a typed envelope the validation of the input gate and the
    check of the internal gate agree: [validateSeal] finds the object of
    the envelope valid exactly when [validateAndPass] returns the
    envelope. *)
Theorem validateSeal_agrees_with_internal_gate (d : SealedData.t)
    (fromModule toModule : string) (w : World) :
  valid (InputSealInterceptor.validateSeal (SealedData.toValue d)) = true
  <-> fst (InternalSealMiddleware.validateAndPass d fromModule toModule w) = Ok d.
Proof.
  rewrite validateSeal_toValue.
  destruct (validateAndPass_outcome d fromModule toModule w) as (r & e & R & Hiff).
  rewrite R. cbn [fst]. rewrite Hiff. apply andb_true_iff.
Qed.

(* ====================================================================== *)
(** * The audit log under any sequence of calls *)
(* ====================================================================== *)



(** X10 - The authenticity score and the tamper flags of a sealed file do
    not depend on the file: every file that [sealFile] seals gets the
    score 95 and an empty list of flags, and no content is attached. *)
Theorem sealFile_score_constant (file : File.t)
    (geolocation : option GeolocationPosition) (w w' : World) (d : SealedData.t) :
  InputSealInterceptor.sealFile file geolocation w = (Ok d, w') ->
  SealedData.authenticityScore d = Some (numberOfN 95)
  /\ SealedData.tamperFlags d = Some []
  /\ SealedData.metadata d = Some (fileMetadata file)
  /\ SealedData.gps d = gpsOf geolocation.
Proof.
  intros H.
  destruct (File.arrayBuffer file) as [buffer | e] eqn:Hb.
  - destruct (JsDate.validTime (File.lastModified file)) eqn:Hd.
    + destruct (sealFile_success file geolocation w buffer Hb Hd) as (c & _ & R).
      rewrite R in H. apply run_inj in H. destruct H as [<- _]. repeat split.
    + rewrite (sealFile_invalid_date file geolocation w buffer Hb Hd) in H.
      discriminate.
  - rewrite (sealFile_unreadable file geolocation w e Hb) in H. discriminate.
Qed.

Lemma sealFile_score_constant_witness :
  SealedData.authenticityScore sealedEvidence = Some (numberOfN 95)
  /\ SealedData.tamperFlags sealedEvidence = Some [].
Proof.
  destruct (sealFile_score_constant evidence None world0 world1 sealedEvidence
              sealFile_evidence) as (H1 & H2 & _).
  split; assumption.
Defined.

(* ====================================================================== *)
(** * The application: hashes, the report seal and the kinds of files *)
(* ====================================================================== *)

Lemma calculateSHA256_run (file : File.t) (buffer : list byte) (w : World) :
  File.arrayBuffer file = Ok buffer ->
  calculateSHA256 file w
  = (Ok (hexOfBytes (WebCrypto.digest WebCrypto.SHA256 buffer)), w).
Proof.
  intros H. unfold calculateSHA256.
  run_bind w buffer ltac:(rewrite lift_run, H; reflexivity). reflexivity.
Qed.

Lemma calculateSHA256_fail (file : File.t) (e : JsError) (w : World) :
  File.arrayBuffer file = Err e -> calculateSHA256 file w = (Err e, w).
Proof.
  intros H. unfold calculateSHA256. apply bind_err. rewrite lift_run, H. reflexivity.
Qed.

(** X11 - [calculateSHA256] gives, for a file that can be read, the
    SHA-256 digest of its bytes as 64 characters of [0-9a-f], whatever
    the name, type and date of the file; for a file that cannot be read
    it throws the error of the read, unchanged.  It writes no audit
    entry and reads no clock. *)
Theorem calculateSHA256_outcome (file : File.t) (w : World) :
  snd (calculateSHA256 file w) = w
  /\ match File.arrayBuffer file with
     | Ok buffer =>
         fst (calculateSHA256 file w)
         = Ok (hexOfBytes (WebCrypto.digest WebCrypto.SHA256 buffer))
         /\ fst (calculateSHA256 file w) = Ok (contentHash file)
         /\ String.length (contentHash file) = 64%nat
         /\ allChars isLowerHex (contentHash file) = true
     | Err e => fst (calculateSHA256 file w) = Err e
     end.
Proof.
  unfold contentHash.
  destruct (File.arrayBuffer file) as [buffer | e] eqn:Hb.
  - rewrite (calculateSHA256_run file buffer w Hb). cbn [fst snd].
    destruct (sha256_hex_shape buffer) as [L H]. repeat split; assumption.
  - rewrite (calculateSHA256_fail file e w Hb). split; reflexivity.
Qed.

Lemma holdsBigInt_strings (l : list string) :
  holdsBigInt (JArr (map JStr l)) = false.
Proof.
  cbn. induction l as [| s l IH]; [reflexivity | exact IH].
Qed.

Lemma holdsBigInt_sealData (timestamp : string) (geolocation : JsVal)
    (fileHashes : list string) :
  holdsBigInt (JObj [ ("timestamp", JStr timestamp);
                      ("geolocation", geolocation);
                      ("fileHashes", JArr (map JStr fileHashes));
                      ("version", JStr "V5.0");
                      ("architecture", JStr "9-Brain") ])
  = holdsBigInt geolocation.
Proof.
  change (false || (holdsBigInt geolocation
                    || (holdsBigInt (JArr (map JStr fileHashes))
                        || (false || (false || false))))
          = holdsBigInt geolocation).
  rewrite holdsBigInt_strings. cbn. now rewrite orb_false_r.
Qed.

(** The seal of a report, for a geolocation value that holds no BigInt. *)
Lemma generateCryptographicSeal_run (timestamp : string) (geolocation : JsVal)
    (fileHashes : list string) (w : World) :
  holdsBigInt geolocation = false ->
  exists seal,
    generateCryptographicSeal timestamp geolocation fileHashes w = (Ok seal, w)
    /\ String.length seal = 16%nat
    /\ allChars isUpperHex seal = true.
Proof.
  intros Hf.
  destruct (stringify_outcome
              (JObj [ ("timestamp", JStr timestamp);
                      ("geolocation", geolocation);
                      ("fileHashes", JArr (map JStr fileHashes));
                      ("version", JStr "V5.0");
                      ("architecture", JStr "9-Brain") ])) as [H1 _].
  rewrite holdsBigInt_sealData in H1. destruct (H1 Hf) as [o Ho].
  unfold generateCryptographicSeal.
  run_bind w (TextEncoder_encode (match o with Some s => s | None => EmptyString end))
    ltac:(apply encodeJSON_run; exact Ho).
  eexists. split; [reflexivity |]. apply signature_shape.
Qed.



(** X13 - The seal of a report never fails: for every map of hashes and
    for coordinates or none, [runOfflineForensics] gets a seal of 16
    characters of [0-9A-F], after one reading of the clock.  The seal is
    computed from the hashes in the order of the map and not from the
    names: maps with the same hashes under other names get the same
    seal. *)
Theorem cryptoSeal_always (fileHashes : JsMap.t string)
    (geolocation : option GeolocationCoordinates) (w : World) :
  exists seal,
    runOfflineForensics.cryptoSeal fileHashes geolocation w = (Ok seal, tick w)
    /\ String.length seal = 16%nat
    /\ allChars isUpperHex seal = true
    /\ forall renamed : JsMap.t string,
         JsMap.values renamed = JsMap.values fileHashes ->
         runOfflineForensics.cryptoSeal renamed geolocation w = (Ok seal, tick w).
Proof.
  assert (Hg : holdsBigInt (runOfflineForensics.geolocationValue geolocation) = false)
    by (destruct geolocation; reflexivity).
  destruct (generateCryptographicSeal_run (nowText w)
              (runOfflineForensics.geolocationValue geolocation)
              (JsMap.values fileHashes) (tick w) Hg)
    as (seal & R & L & H).
  exists seal.
  assert (E : runOfflineForensics.cryptoSeal fileHashes geolocation w = (Ok seal, tick w)).
  { unfold runOfflineForensics.cryptoSeal.
    run_bind (tick w) (nowText w) ltac:(apply now_run). exact R. }
  split; [exact E |]. split; [exact L |]. split; [exact H |].
  intros renamed Hv. rewrite <- E. unfold runOfflineForensics.cryptoSeal.
  now rewrite Hv.
Qed.

(** ** The kinds of files *)

Lemma prefix_head (a b : ascii) (p q s : string) :
  String.prefix (String a p) s = true ->
  String.prefix (String b q) s = true -> a = b.
Proof.
  destruct s as [| c s]; cbn; [discriminate |].
  destruct (ascii_dec a c) as [-> |]; [| discriminate].
  destruct (ascii_dec b c) as [-> |]; [reflexivity | discriminate].
Qed.

Lemma startsWith_excl (a b : ascii) (p q s : string) :
  a <> b ->
  startsWith s (String a p) = true -> startsWith s (String b q) = false.
Proof.
  intros Hab H. destruct (startsWith s (String b q)) eqn:E; [| reflexivity].
  exfalso. apply Hab. exact (prefix_head a b p q s H E).
Qed.

Lemma endsWith_excl (s p q : string) :
  String.length p = String.length q -> p <> q ->
  endsWith s p = true -> endsWith s q = false.
Proof.
  unfold endsWith. intros Hl Hpq H. rewrite <- Hl.
  apply andb_true_iff in H. destruct H as [_ H]. apply String.eqb_eq in H.
  rewrite H. apply andb_false_iff. right. now apply String.eqb_neq.
Qed.

(** The five tests on the type of a file exclude one another. *)
Lemma kinds_exclusive (t : string) :
  let i := startsWith t "image/" in
  let a := startsWith t "audio/" in
  let v := startsWith t "video/" in
  let x := startsWith t "text/" in
  let p := String.eqb t "application/pdf" in
  (count i + count a + count v + count x + count p <= 1)%nat.
Proof.
  cbv zeta.
  destruct (String.eqb t "application/pdf") eqn:P.
  - apply String.eqb_eq in P. subst t. cbn. lia.
  - destruct (startsWith t "image/") eqn:I.
    + rewrite (startsWith_excl "i" "a" _ "udio/" t ltac:(discriminate) I).
      rewrite (startsWith_excl "i" "v" _ "ideo/" t ltac:(discriminate) I).
      rewrite (startsWith_excl "i" "t" _ "ext/" t ltac:(discriminate) I).
      cbn. lia.
    + destruct (startsWith t "audio/") eqn:A.
      * rewrite (startsWith_excl "a" "v" _ "ideo/" t ltac:(discriminate) A).
        rewrite (startsWith_excl "a" "t" _ "ext/" t ltac:(discriminate) A).
        cbn. lia.
      * destruct (startsWith t "video/") eqn:V.
        -- rewrite (startsWith_excl "v" "t" _ "ext/" t ltac:(discriminate) V).
           cbn. lia.
        -- destruct (startsWith t "text/"); cbn; lia.
Qed.

Lemma listsHolding_bounds (f : File.t) : (1 <= listsHolding f <= 2)%nat.
Proof.
  unfold listsHolding, runOfflineForensics.isImage, runOfflineForensics.isAudio,
    runOfflineForensics.isVideo, runOfflineForensics.isPdf,
    runOfflineForensics.isText, runOfflineForensics.isOther.
  pose proof (kinds_exclusive (File.type f)) as K. cbv zeta in K.
  assert (E : endsWith (File.name f) ".pdf" = true ->
              endsWith (File.name f) ".txt" = false)
    by (apply endsWith_excl; [reflexivity | discriminate]).
  destruct (startsWith (File.type f) "image/"),
    (startsWith (File.type f) "audio/"),
    (startsWith (File.type f) "video/"),
    (startsWith (File.type f) "text/"),
    (String.eqb (File.type f) "application/pdf"),
    (endsWith (File.name f) ".pdf") eqn:Ep,
    (endsWith (File.name f) ".txt") eqn:Et;
    cbn in *; try lia; specialize (E eq_refl); discriminate.
Qed.

Lemma filter_length_count {A : Type} (p : A -> bool) (l : list A) :
  List.length (filter p l) = fold_right (fun x n => (count (p x) + n)%nat) 0%nat l.
Proof.
  induction l as [| x l IH]; [reflexivity |].
  cbn. destruct (p x); cbn; now rewrite IH.
Qed.

Lemma lists_total (files : list File.t) :
  (List.length (runOfflineForensics.imageFiles files)
   + List.length (runOfflineForensics.audioFiles files)
   + List.length (runOfflineForensics.videoFiles files)
   + List.length (runOfflineForensics.pdfFiles files)
   + List.length (runOfflineForensics.textFiles files)
   + List.length (runOfflineForensics.otherFiles files))%nat
  = fold_right (fun f n => (listsHolding f + n)%nat) 0%nat files.
Proof.
  unfold runOfflineForensics.imageFiles, runOfflineForensics.audioFiles,
    runOfflineForensics.videoFiles, runOfflineForensics.pdfFiles,
    runOfflineForensics.textFiles, runOfflineForensics.otherFiles.
  rewrite !filter_length_count.
  induction files as [| f files IH]; [reflexivity |].
  cbn [fold_right]. rewrite <- IH. unfold listsHolding. lia.
Qed.

(** X14 - The six lists into which [runOfflineForensics] sorts the files
    cover them, with overlaps: every file stands in at least one list
    and in at most two, so the six lengths add up to at least the
    number of files and at most twice that number; a file with an
    image, audio or video type that is named neither [.pdf] nor [.txt]
    stands in exactly one. *)
Theorem file_lists_cover (files : list File.t) :
  let total :=
    (List.length (runOfflineForensics.imageFiles files)
     + List.length (runOfflineForensics.audioFiles files)
     + List.length (runOfflineForensics.videoFiles files)
     + List.length (runOfflineForensics.pdfFiles files)
     + List.length (runOfflineForensics.textFiles files)
     + List.length (runOfflineForensics.otherFiles files))%nat in
  (List.length files <= total <= 2 * List.length files)%nat
  /\ (forall f, In f files ->
        In f (runOfflineForensics.imageFiles files)
        \/ In f (runOfflineForensics.audioFiles files)
        \/ In f (runOfflineForensics.videoFiles files)
        \/ In f (runOfflineForensics.pdfFiles files)
        \/ In f (runOfflineForensics.textFiles files)
        \/ In f (runOfflineForensics.otherFiles files))
  /\ (forall f,
        endsWith (File.name f) ".pdf" = false ->
        endsWith (File.name f) ".txt" = false ->
        listsHolding f = 1%nat).
Proof.
  cbv zeta. rewrite lists_total. split; [| split].
  - induction files as [| f files IH]; cbn [fold_right List.length]; [lia |].
    pose proof (listsHolding_bounds f). lia.
  - intros f Hin.
    unfold runOfflineForensics.imageFiles, runOfflineForensics.audioFiles,
      runOfflineForensics.videoFiles, runOfflineForensics.pdfFiles,
      runOfflineForensics.textFiles, runOfflineForensics.otherFiles.
    rewrite !filter_In.
    pose proof (listsHolding_bounds f) as B. unfold listsHolding in B.
    destruct (runOfflineForensics.isImage f); [tauto |].
    destruct (runOfflineForensics.isAudio f); [tauto |].
    destruct (runOfflineForensics.isVideo f); [tauto |].
    destruct (runOfflineForensics.isPdf f); [tauto |].
    destruct (runOfflineForensics.isText f); [tauto |].
    destruct (runOfflineForensics.isOther f); [tauto |].
    cbn in B. lia.
  - intros f Hp Ht.
    pose proof (kinds_exclusive (File.type f)) as K. cbv zeta in K.
    unfold listsHolding, runOfflineForensics.isImage, runOfflineForensics.isAudio,
      runOfflineForensics.isVideo, runOfflineForensics.isPdf,
      runOfflineForensics.isText, runOfflineForensics.isOther.
    rewrite Hp, Ht.
    destruct (startsWith (File.type f) "image/"),
      (startsWith (File.type f) "audio/"),
      (startsWith (File.type f) "video/"),
      (startsWith (File.type f) "text/"),
      (String.eqb (File.type f) "application/pdf"); cbn in *; lia.
Qed.

(** X15 - The count the report gives as [Other Documents] takes a file
    twice when its name ends in [.txt] and its type is none of image,
    audio, video, text and PDF: it is the number of files that are text
    or other, plus the number of such files. *)
Theorem otherDocuments_counts_twice (files : list File.t) :
  runOfflineForensics.otherDocuments files
  = (List.length (filter (fun f => runOfflineForensics.isText f
                                   || runOfflineForensics.isOther f) files)
     + List.length (filter (fun f => endsWith (File.name f) ".txt"
                                     && runOfflineForensics.isOther f) files))%nat.
Proof.
  unfold runOfflineForensics.otherDocuments, runOfflineForensics.textFiles,
    runOfflineForensics.otherFiles.
  rewrite !filter_length_count.
  induction files as [| f files IH]; [reflexivity |].
  cbn [fold_right].
  assert (E : (count (runOfflineForensics.isText f)
               + count (runOfflineForensics.isOther f))%nat
              = (count (runOfflineForensics.isText f || runOfflineForensics.isOther f)
                 + count (endsWith (File.name f) ".txt"
                          && runOfflineForensics.isOther f))%nat).
  { unfold runOfflineForensics.isText, runOfflineForensics.isOther.
    destruct (startsWith (File.type f) "text/"),
      (endsWith (File.name f) ".txt"),
      (startsWith (File.type f) "image/"),
      (startsWith (File.type f) "audio/"),
      (startsWith (File.type f) "video/"),
      (String.eqb (File.type f) "application/pdf"); reflexivity. }
  lia.
Qed.

(** X16 - The category the report prints for a file names a list the
    file stands in, and is one of six texts; but a file that stands in
    the list of texts by its name only is not printed as text
    evidence. *)
Theorem category_names_a_list (f : File.t) :
  (runOfflineForensics.category f = "Visual Evidence (Image)"
   /\ runOfflineForensics.isImage f = true)
  \/ (runOfflineForensics.category f = "Document Evidence (PDF)"
      /\ runOfflineForensics.isPdf f = true)
  \/ (runOfflineForensics.category f = "Text Evidence"
      /\ runOfflineForensics.isText f = true
      /\ startsWith (File.type f) "text/" = true)
  \/ (runOfflineForensics.category f = "Audio Evidence"
      /\ runOfflineForensics.isAudio f = true)
  \/ (runOfflineForensics.category f = "Video Evidence"
      /\ runOfflineForensics.isVideo f = true)
  \/ (runOfflineForensics.category f = "Other Evidence"
      /\ runOfflineForensics.isOther f = true).
Proof.
  unfold runOfflineForensics.category, runOfflineForensics.isImage,
    runOfflineForensics.isAudio, runOfflineForensics.isVideo,
    runOfflineForensics.isPdf, runOfflineForensics.isText,
    runOfflineForensics.isOther.
  destruct (startsWith (File.type f) "image/"); [left; split; reflexivity |].
  destruct (String.eqb (File.type f) "application/pdf") eqn:P.
  - right; left. split; reflexivity.
  - destruct (endsWith (File.name f) ".pdf").
    + right; left. split; reflexivity.
    + cbn [orb].
      destruct (startsWith (File.type f) "text/");
        [right; right; left; repeat split; reflexivity |].
      destruct (startsWith (File.type f) "audio/");
        [right; right; right; left; split; reflexivity |].
      destruct (startsWith (File.type f) "video/");
        [right; right; right; right; left; split; reflexivity |].
      right; right; right; right; right. split; reflexivity.
Qed.

(** ** The map of hashes *)

Lemma JsMap_get_set {V : Type} (key k : string) (v : V) (m : JsMap.t V) :
  JsMap.get key (JsMap.set k v m)
  = if String.eqb k key then Some v else JsMap.get key m.
Proof.
  induction m as [| [k0 v0] m IH]; cbn.
  - reflexivity.
  - destruct (String.eqb k0 k) eqn:E0; cbn.
    + apply String.eqb_eq in E0. subst k0.
      destruct (String.eqb k key); reflexivity.
    + destruct (String.eqb k0 key) eqn:E1.
      * destruct (String.eqb k key) eqn:E2; [| reflexivity].
        apply String.eqb_eq in E1, E2. subst. rewrite String.eqb_refl in E0.
        discriminate.
      * exact IH.
Qed.

Lemma JsMap_keys_set {V : Type} (k : string) (v : V) (m : JsMap.t V) :
  JsMap.keys (JsMap.set k v m)
  = if existsb (String.eqb k) (JsMap.keys m) then JsMap.keys m
    else (JsMap.keys m ++ [k])%list.
Proof.
  unfold JsMap.keys. induction m as [| [k0 v0] m IH]; cbn.
  - reflexivity.
  - rewrite (String.eqb_sym k k0).
    destruct (String.eqb k0 k); cbn; [reflexivity |].
    rewrite IH. destruct (existsb (String.eqb k) (map fst m)); reflexivity.
Qed.

Lemma lastNamed_cons (name : string) (f : File.t) (files : list File.t) :
  lastNamed name (f :: files)
  = match lastNamed name files with
    | Some g => Some g
    | None => if String.eqb (File.name f) name then Some f else None
    end.
Proof.
  unfold lastNamed. cbn [rev].
  induction (rev files) as [| g l IH]; cbn.
  - destruct (String.eqb (File.name f) name); reflexivity.
  - destruct (String.eqb (File.name g) name); [reflexivity | exact IH].
Qed.

Lemma lastNamed_some (name : string) (files : list File.t) (g : File.t) :
  lastNamed name files = Some g -> In g files /\ File.name g = name.
Proof.
  unfold lastNamed. intros H. apply find_some in H. destruct H as [Hin He].
  split; [now apply in_rev | now apply String.eqb_eq].
Qed.

Lemma lastNamed_in (f : File.t) (files : list File.t) :
  In f files -> exists g, lastNamed (File.name f) files = Some g.
Proof.
  unfold lastNamed. intros Hin.
  destruct (find (fun g => String.eqb (File.name g) (File.name f)) (rev files))
    as [g |] eqn:E; [now exists g |].
  apply in_rev in Hin. pose proof (find_none _ _ E f Hin) as X. cbv beta in X.
  rewrite String.eqb_refl in X. discriminate.
Qed.

(** The loop over readable files: each file sets the hash of its bytes
    under its name. *)
Lemma hashInto_run (files : list File.t) (m : JsMap.t string) (w : World) :
  forallb readable files = true ->
  handleAnalyze.hashInto files m w
  = (Ok (fold_left (fun acc f => JsMap.set (File.name f) (contentHash f) acc) files m),
     w).
Proof.
  revert m. induction files as [| f files IH]; intros m H; [reflexivity |].
  cbn [forallb] in H. apply andb_true_iff in H. destruct H as [Hf H].
  cbn [handleAnalyze.hashInto fold_left].
  unfold readable in Hf. unfold contentHash at 2.
  destruct (File.arrayBuffer f) as [buffer | e] eqn:Hb; [| discriminate].
  run_bind w (hexOfBytes (WebCrypto.digest WebCrypto.SHA256 buffer))
    ltac:(apply calculateSHA256_run; exact Hb).
  apply IH, H.
Qed.

Lemma hashInto_fail (files : list File.t) (m : JsMap.t string) (w : World)
    (g : File.t) :
  firstUnreadable files = Some g ->
  exists e, File.arrayBuffer g = Err e
            /\ handleAnalyze.hashInto files m w = (Err e, w).
Proof.
  revert m. unfold firstUnreadable.
  induction files as [| f files IH]; intros m H; [discriminate |].
  cbn [find] in H. cbn [handleAnalyze.hashInto].
  unfold readable in H.
  destruct (File.arrayBuffer f) as [buffer | e] eqn:Hb; cbn [negb] in H.
  - run_bind w (hexOfBytes (WebCrypto.digest WebCrypto.SHA256 buffer))
      ltac:(apply calculateSHA256_run; exact Hb).
    apply IH, H.
  - assert (g = f) by congruence. subst g. exists e. split; [exact Hb |].
    apply bind_err, calculateSHA256_fail, Hb.
Qed.

Lemma fold_set_get (files : list File.t) (m : JsMap.t string) (name : string) :
  JsMap.get name
    (fold_left (fun acc f => JsMap.set (File.name f) (contentHash f) acc) files m)
  = match lastNamed name files with
    | Some g => Some (contentHash g)
    | None => JsMap.get name m
    end.
Proof.
  revert m. induction files as [| f files IH]; intros m; [reflexivity |].
  cbn [fold_left]. rewrite IH, lastNamed_cons, JsMap_get_set.
  destruct (lastNamed name files); [reflexivity |].
  destruct (String.eqb (File.name f) name); reflexivity.
Qed.

Lemma fold_set_length (files : list File.t) (m : JsMap.t string) :
  (List.length (fold_left (fun acc f => JsMap.set (File.name f) (contentHash f) acc)
                  files m)
   <= List.length m + List.length files)%nat.
Proof.
  revert m. induction files as [| f files IH]; intros m; cbn [fold_left List.length].
  - lia.
  - specialize (IH (JsMap.set (File.name f) (contentHash f) m)).
    assert (L : (List.length (JsMap.set (File.name f) (contentHash f) m)
                 <= S (List.length m))%nat).
    { clear IH. induction m as [| [k v] m IHm]; cbn; [lia |].
      destruct (String.eqb k (File.name f)); cbn; lia. }
    lia.
Qed.

Lemma contentHash_shape (f : File.t) :
  readable f = true ->
  String.length (contentHash f) = 64%nat /\ allChars isLowerHex (contentHash f) = true.
Proof.
  unfold readable, contentHash.
  destruct (File.arrayBuffer f) as [buffer | e]; [| discriminate].
  intros _. apply sha256_hex_shape.
Qed.

(** X17 - The hashing loop of [handleAnalyze] keys the hashes by file
    name: when all files can be read the map holds, for every file,
    the hash of the last file in the list that bears its name, so that
    of two files with one name the earlier is shown with the hash of
    the later; the map has at most as many entries as there are files,
    the hash shown for a file is never the pending mark, and the world
    is left as it is. *)
Theorem fileHashes_by_name (files : list File.t) (w : World) :
  forallb readable files = true ->
  exists m,
    handleAnalyze.fileHashes files w = (Ok m, w)
    /\ (List.length m <= List.length files)%nat
    /\ forall f, In f files ->
         exists g,
           lastNamed (File.name f) files = Some g
           /\ In g files
           /\ File.name g = File.name f
           /\ JsMap.get (File.name f) m = Some (contentHash g)
           /\ runOfflineForensics.shownHash m f = contentHash g
           /\ String.length (runOfflineForensics.shownHash m f) = 64%nat
           /\ allChars isLowerHex (runOfflineForensics.shownHash m f) = true.
Proof.
  intros Hr. eexists. split; [apply hashInto_run, Hr |].
  split; [apply (fold_set_length files JsMap.empty) |].
  intros f Hin. destruct (lastNamed_in f files Hin) as [g Hg].
  destruct (lastNamed_some _ _ _ Hg) as [Hgin Hname].
  assert (Hrg : readable g = true).
  { rewrite forallb_forall in Hr. now apply Hr. }
  destruct (contentHash_shape g Hrg) as [L H].
  assert (Hget : JsMap.get (File.name f)
                   (fold_left (fun acc f0 => JsMap.set (File.name f0) (contentHash f0) acc)
                      files JsMap.empty) = Some (contentHash g)).
  { rewrite fold_set_get, Hg. reflexivity. }
  assert (Hshown : runOfflineForensics.shownHash
                     (fold_left (fun acc f0 => JsMap.set (File.name f0) (contentHash f0) acc)
                        files JsMap.empty) f = contentHash g).
  { unfold runOfflineForensics.shownHash. rewrite Hget.
    destruct (String.eqb (contentHash g) EmptyString) eqn:E; [| reflexivity].
    apply String.eqb_eq in E. rewrite E in L. discriminate. }
  exists g. rewrite Hshown. repeat split; assumption.
Qed.

Lemma fileHashes_by_name_witness :
  exists m,
    handleAnalyze.fileHashes [draft; recording; revision] world0 = (Ok m, world0)
    /\ runOfflineForensics.shownHash m draft = contentHash revision
    /\ contentHash draft <> contentHash revision.
Proof.
  destruct (fileHashes_by_name [draft; recording; revision] world0 eq_refl)
    as (m & R & _ & H).
  exists m. split; [exact R |].
  destruct (H draft (or_introl eq_refl)) as (g & Hg & _ & _ & _ & Hs & _).
  split.
  - rewrite Hs. f_equal.
    assert (E : lastNamed (File.name draft) [draft; recording; revision]
                = Some revision) by reflexivity.
    congruence.
  - vm_compute. discriminate.
Defined.

(** X18 - The hashing loop of [handleAnalyze] stops at the first file
    that cannot be read and throws the error of that read: no map of
    hashes is produced, however many files were hashed before. *)
Theorem fileHashes_stops_at_unreadable (files : list File.t) (w : World)
    (g : File.t) :
  firstUnreadable files = Some g ->
  exists e,
    File.arrayBuffer g = Err e
    /\ In g files
    /\ handleAnalyze.fileHashes files w = (Err e, w).
Proof.
  intros H. destruct (hashInto_fail files JsMap.empty w g H) as (e & He & R).
  exists e. split; [exact He |]. split; [| exact R].
  unfold firstUnreadable in H. now apply find_some in H.
Qed.

Lemma fileHashes_stops_at_unreadable_witness :
  fst (handleAnalyze.fileHashes
         [draft;
          {| File.name := "lost.bin"; File.type := EmptyString; File.size := 0;
             File.lastModified := 0;
             File.arrayBuffer :=
               Err {| errName := "NotReadableError";
                      errMessage := "The file could not be read" |} |};
          revision] world0)
  = Err {| errName := "NotReadableError";
           errMessage := "The file could not be read" |}.
Proof.
  destruct (fileHashes_stops_at_unreadable
              [draft;
               {| File.name := "lost.bin"; File.type := EmptyString; File.size := 0;
                  File.lastModified := 0;
                  File.arrayBuffer :=
                    Err {| errName := "NotReadableError";
                           errMessage := "The file could not be read" |} |};
               revision] world0 _ eq_refl) as (e & He & _ & R).
  rewrite R. cbn [fst]. cbn in He. congruence.
Defined.

(** X19 - From the files to the seal of the report: when all files can
    be read, hashing them and sealing the report succeeds, with or
    without coordinates; the seal is 16 characters of [0-9A-F], no
    audit entry is written and the clock is read once. *)
Theorem report_seal_succeeds (files : list File.t)
    (geolocation : option GeolocationCoordinates) (w : World) :
  forallb readable files = true ->
  exists seal,
    (fileHashes <- handleAnalyze.fileHashes files ;;
     runOfflineForensics.cryptoSeal fileHashes geolocation) w
    = (Ok seal, tick w)
    /\ String.length seal = 16%nat
    /\ allChars isUpperHex seal = true.
Proof.
  intros Hr.
  assert (Hg : holdsBigInt (runOfflineForensics.geolocationValue geolocation) = false)
    by (destruct geolocation; reflexivity).
  set (m := fold_left (fun acc f => JsMap.set (File.name f) (contentHash f) acc)
              files JsMap.empty).
  destruct (generateCryptographicSeal_run (nowText w)
              (runOfflineForensics.geolocationValue geolocation)
              (JsMap.values m) (tick w) Hg)
    as (seal & R & L & H).
  exists seal. split; [| split; assumption].
  run_bind w m ltac:(apply hashInto_run; exact Hr).
  unfold runOfflineForensics.cryptoSeal.
  run_bind (tick w) (nowText w) ltac:(apply now_run). exact R.
Qed.

Lemma report_seal_succeeds_witness :
  exists seal,
    (fileHashes <- handleAnalyze.fileHashes [draft; recording; revision] ;;
     runOfflineForensics.cryptoSeal fileHashes None) world0
    = (Ok seal, tick world0)
    /\ String.length seal = 16%nat.
Proof.
  destruct (report_seal_succeeds [draft; recording; revision] None world0 eq_refl)
    as (seal & R & L & _).
  exists seal. split; assumption.
Defined.

(* ====================================================================== *)
(** * Seal validation when property reads run code *)
(* ====================================================================== *)



(** [validateSeal] throws only what a property read throws: on an object
    whose reads all return, it returns a result. *)
Lemma validateSeal_throws_only_from_reads
    (get : string -> World -> Result JsAny * World) (w : World) :
  (forall key w0, exists v w1, get key w0 = (Ok v, w1)) ->
  exists r w', Any.validateSeal (Live get) w = (Ok r, w').
Proof.
  intros H.
  change (Any.validateSeal (Live get) w)
    with ((sealed <- get "sealed" ;;
           if negb (Any.isTrue sealed) then
             ret {| valid := false; reason := Some "Data is not marked as sealed";
                    auditEntry := None |}
           else
             incomplete <-
               (sha512 <- get "sha512" ;;
                if Any.falsy sha512 then ret true
                else
                  (timestamp <- get "timestamp" ;;
                   if Any.falsy timestamp then ret true
                   else
                     (chainOfCustody <- get "chainOfCustody" ;;
                      ret (Any.falsy chainOfCustody)))) ;;
             if incomplete : bool then
               ret {| valid := false;
                      reason := Some "Missing required seal fields (sha512, timestamp, or chainOfCustody)";
                      auditEntry := None |}
             else
               ret {| valid := true; reason := None; auditEntry := None |}) w).
  destruct (H "sealed" w) as (v0 & w0 & E0). run_bind w0 v0 ltac:(exact E0).
  destruct (negb (Any.isTrue v0)); [eexists; eexists; reflexivity |].
  destruct (H "sha512" w0) as (v1 & w1 & E1).
  destruct (Any.falsy v1) eqn:F1.
  { run_bind w1 true ltac:(run_bind w1 v1 ltac:(exact E1); rewrite F1; reflexivity).
    eexists; eexists; reflexivity. }
  destruct (H "timestamp" w1) as (v2 & w2 & E2).
  destruct (Any.falsy v2) eqn:F2.
  { run_bind w2 true
      ltac:(run_bind w1 v1 ltac:(exact E1); rewrite F1;
            run_bind w2 v2 ltac:(exact E2); rewrite F2; reflexivity).
    eexists; eexists; reflexivity. }
  destruct (H "chainOfCustody" w2) as (v3 & w3 & E3).
  run_bind w3 (Any.falsy v3)
    ltac:(run_bind w1 v1 ltac:(exact E1); rewrite F1;
          run_bind w2 v2 ltac:(exact E2); rewrite F2;
          run_bind w3 v3 ltac:(exact E3); reflexivity).
  destruct (Any.falsy v3); eexists; eexists; reflexivity.
Qed.

Example validateSeal_traced :
  Any.validateSeal tracedPacket world0
  = (Ok {| valid := true; reason := None; auditEntry := None |},
     tick (tick (tick (tick world0)))).
Proof. reflexivity. Qed.

